(** * react-farcaster-embed: the cast resolver and the view-model mapper

    A shallow embedding of [src/index.tsx]: the async function [getCast], the
    server component [FarcasterEmbed], and the fragment of JavaScript they
    run on (property reads on parsed JSON, truthiness, [&&], template
    literals, [split], [map], [toLocaleString], [/] and [>]).

    Conventions.
    - A parsed response is a [value]; JavaScript numbers are IEEE binary64,
      here Rocq's primitive [float].
    - Strings are sequences of code units; every literal of the source is
      ASCII, so [string] holds them unchanged.
    - Evaluating an expression over JSON data either yields a value or raises
      a [TypeError]: that is [eval].  An async function settles with a value
      or a thrown error and may issue requests on the way: that is [IO].
    - What the JavaScript host supplies and the repository does not define
      (number <-> string conversion, [Intl] formatting, [Date] parsing) is a
      record [Host], a parameter of the development. *)

From Stdlib Require Import String Ascii List Bool Arith ZArith Lia.
From Stdlib Require Import Floats Uint63.
Import ListNotations.
Local Open Scope list_scope.
Local Open Scope string_scope.
Set Warnings "-register-all".

(** ** JavaScript values reachable from [res.json()] *)

Inductive value : Type :=
| VUndef
| VNull
| VBool (b : bool)
| VNum (x : float)
| VStr (s : string)
| VArr (elems : list value)
| VObj (props : list (string * value)).

(** Outcome of evaluating an expression: a result, or a TypeError raised by
    the engine (the message follows V8's wording and is never inspected). *)
Inductive eval (A : Type) : Type :=
| Val (a : A)
| TypeErr (msg : string).
Arguments Val {A} a.
Arguments TypeErr {A} msg.

Definition ebind {A B : Type} (m : eval A) (k : A -> eval B) : eval B :=
  match m with
  | Val a => k a
  | TypeErr msg => TypeErr msg
  end.

Declare Scope eval_scope.
Delimit Scope eval_scope with eval.
Notation "x <- m ;; k" := (ebind m (fun x => k))
  (at level 61, m at next level, right associativity) : eval_scope.
Local Open Scope eval_scope.

Fixpoint emap {A B : Type} (f : A -> eval B) (l : list A) : eval (list B) :=
  match l with
  | [] => Val []
  | a :: r => b <- f a ;; bs <- emap f r ;; Val (b :: bs)
  end.

(** ** The host *)

Record Host : Type := {
  (** Number::toString, as used by template literals and [join]. *)
  NumberToString : float -> string;
  (** StringToNumber, as used by [/] and [>] on a string operand. *)
  StringToNumber : string -> float;
  (** [Number.prototype.toLocaleString("en-US")]. *)
  NumberToLocaleString : float -> string;
  (** [Date.parse]. *)
  DateParse : string -> float;
  (** [Date.prototype.toLocaleString("en-US", options)] on a time value,
      with the options of lines 71-78. *)
  DateToLocaleString : float -> string
}.

(** ** Property keys and own properties *)

Fixpoint own (props : list (string * value)) (k : string) : option value :=
  match props with
  | [] => None
  | (k', v) :: rest => if String.eqb k' k then Some v else own rest k
  end.

Definition digit_of (c : ascii) : option nat :=
  let n := nat_of_ascii c in
  if ((48 <=? n)%nat && (n <=? 57)%nat)%bool then Some (n - 48) else None.

Fixpoint digits_value (s : string) (acc : nat) : option nat :=
  match s with
  | EmptyString => Some acc
  | String c r =>
      match digit_of c with
      | Some d => digits_value r (10 * acc + d)
      | None => None
      end
  end.

(** A canonical array index: decimal digits without a leading zero. *)
Definition array_index (k : string) : option nat :=
  match k with
  | EmptyString => None
  | String "0"%char EmptyString => Some 0
  | String "0"%char _ => None
  | _ => digits_value k 0
  end.

Definition float_of_nat (n : nat) : float :=
  PrimFloat.of_uint63 (Uint63.of_Z (Z.of_nat n)).

Definition nullish (v : value) : bool :=
  match v with
  | VUndef | VNull => true
  | _ => false
  end.

Definition value_name (v : value) : string :=
  match v with
  | VNull => "null"
  | _ => "undefined"
  end.

(** [v.k] and [v[k]].  Reading from [undefined] or [null] raises; an array
    answers [length] and its indices, a string likewise, an object its own
    properties; everything else is [undefined].  The keys the program reads
    are never names of prototype members other than [length]. *)
Definition get (v : value) (k : string) : eval value :=
  match v with
  | VUndef | VNull =>
      TypeErr ("Cannot read properties of " ++ value_name v ++ " (reading '" ++ k ++ "')")
  | VBool _ | VNum _ => Val VUndef
  | VStr s =>
      if String.eqb k "length" then Val (VNum (float_of_nat (String.length s)))
      else match array_index k with
           | Some i => match String.get i s with
                       | Some c => Val (VStr (String c EmptyString))
                       | None => Val VUndef
                       end
           | None => Val VUndef
           end
  | VArr l =>
      if String.eqb k "length" then Val (VNum (float_of_nat (List.length l)))
      else match array_index k with
           | Some i => Val (nth i l VUndef)
           | None => Val VUndef
           end
  | VObj o =>
      match own o k with
      | Some w => Val w
      | None => Val VUndef
      end
  end.

(** ** Coercions *)

(** ToBoolean. *)
Definition truthy (v : value) : bool :=
  match v with
  | VUndef | VNull => false
  | VBool b => b
  | VNum x => negb (PrimFloat.eqb x 0 || PrimFloat.is_nan x)
  | VStr s => negb (String.eqb s "")
  | VArr _ | VObj _ => true
  end.

(** [a && b]: [b] is evaluated only when [a] is truthy. *)
Definition and_then (a : value) (b : eval value) : eval value :=
  if truthy a then b else Val a.

(** [v === s] for a string literal [s]. *)
Definition strict_eq_str (v : value) (s : string) : bool :=
  match v with
  | VStr t => String.eqb t s
  | _ => false
  end.

Section WithHost.

Context (host : Host).

(** ToString.  An array is joined with commas, [undefined] and [null]
    elements giving the empty string; a plain object gives
    "[object Object]" unless an own [toString] property (a JSON value, hence
    not callable) shadows the inherited method. *)
Fixpoint ToString (v : value) : eval string :=
  match v with
  | VUndef => Val "undefined"
  | VNull => Val "null"
  | VBool true => Val "true"
  | VBool false => Val "false"
  | VNum x => Val (NumberToString host x)
  | VStr s => Val s
  | VArr l =>
      (fix join (l : list value) : eval string :=
         match l with
         | [] => Val ""
         | e :: r =>
             s <- (if nullish e then Val "" else ToString e) ;;
             match r with
             | [] => Val s
             | _ => t <- join r ;; Val (s ++ "," ++ t)
             end
         end) l
  | VObj o =>
      match own o "toString" with
      | Some _ => TypeErr "Cannot convert object to primitive value"
      | None => Val "[object Object]"
      end
  end.

(** ToPrimitive: [valueOf] of an array or object never yields a primitive,
    so both hints end in [toString]. *)
Definition ToPrimitive (v : value) : eval value :=
  match v with
  | VArr _ | VObj _ => s <- ToString v ;; Val (VStr s)
  | _ => Val v
  end.

(** ToNumber. *)
Definition ToNumber (v : value) : eval float :=
  p <- ToPrimitive v ;;
  match p with
  | VUndef => Val PrimFloat.nan
  | VNull => Val 0%float
  | VBool true => Val 1%float
  | VBool false => Val 0%float
  | VNum x => Val x
  | VStr s => Val (StringToNumber host s)
  | VArr _ | VObj _ => Val PrimFloat.nan
  end.

(** [a / b]. *)
Definition js_div (a b : value) : eval value :=
  x <- ToNumber a ;; y <- ToNumber b ;; Val (VNum (PrimFloat.div x y)).

(** [a > 0]. *)
Definition gt_zero (a : value) : eval value :=
  x <- ToNumber a ;; Val (VBool (PrimFloat.ltb 0 x)).

(** [v.toLocaleString("en-US")]. *)
Fixpoint toLocaleString (v : value) : eval string :=
  match v with
  | VUndef | VNull =>
      TypeErr ("Cannot read properties of " ++ value_name v ++ " (reading 'toLocaleString')")
  | VBool true => Val "true"
  | VBool false => Val "false"
  | VNum x => Val (NumberToLocaleString host x)
  | VStr s => Val s
  | VArr l =>
      (fix join (l : list value) : eval string :=
         match l with
         | [] => Val ""
         | e :: r =>
             s <- (if nullish e then Val "" else toLocaleString e) ;;
             match r with
             | [] => Val s
             | _ => t <- join r ;; Val (s ++ "," ++ t)
             end
         end) l
  | VObj o =>
      match own o "toLocaleString" with
      | Some _ => TypeErr "toLocaleString is not a function"
      | None =>
          match own o "toString" with
          | Some _ => TypeErr "toString is not a function"
          | None => Val "[object Object]"
          end
      end
  end.

(** [new Date(v).toLocaleString("en-US", options)]: a string argument is
    parsed, anything else is converted to a time value. *)
Definition formatTimestamp (v : value) : eval string :=
  p <- ToPrimitive v ;;
  t <- match p with
       | VStr s => Val (DateParse host s)
       | _ => ToNumber p
       end ;;
  Val (DateToLocaleString host t).

End WithHost.

(** [s.split("/")]. *)
Fixpoint split_slash (s : string) : list string :=
  match s with
  | EmptyString => [EmptyString]
  | String c r =>
      if Ascii.eqb c "/"%char then EmptyString :: split_slash r
      else match split_slash r with
           | h :: t => String c h :: t
           | [] => [String c EmptyString]
           end
  end.

(** ** Thrown errors, promises and the network *)

Inductive thrown : Type :=
| JsError (msg : string)         (* new Error(msg) *)
| JsTypeError (msg : string)
| JsSyntaxError (msg : string)
| JsOther (name msg : string).   (* any other exception object *)

Inductive settled (A : Type) : Type :=
| Fulfilled (a : A)
| Rejected (e : thrown).
Arguments Fulfilled {A} a.
Arguments Rejected {A} e.

(** A [Response]: all the program asks of it is [json()]. *)
Record response : Type := { json : settled value }.

Definition request : Type := string.

(** The network answers a request given the requests issued before it, so
    that a second attempt may well succeed where the first failed. *)
Definition network : Type := list request -> request -> settled response.

(** An async computation: it extends the log of issued requests and
    settles. *)
Definition IO (A : Type) : Type := list request -> list request * settled A.

Definition ret {A : Type} (a : A) : IO A := fun log => (log, Fulfilled a).

Definition throw {A : Type} (e : thrown) : IO A := fun log => (log, Rejected e).

Definition iobind {A B : Type} (m : IO A) (k : A -> IO B) : IO B :=
  fun log =>
    match m log with
    | (log', Fulfilled a) => k a log'
    | (log', Rejected e) => (log', Rejected e)
    end.

Declare Scope io_scope.
Delimit Scope io_scope with io.
Notation "x <~ m ;; k" := (iobind m (fun x => k))
  (at level 61, m at next level, right associativity) : io_scope.
Local Open Scope io_scope.

(** [try { body } catch (e) { handler }]. *)
Definition try_catch {A : Type} (body : IO A) (handler : thrown -> IO A) : IO A :=
  fun log =>
    match body log with
    | (log', Fulfilled a) => (log', Fulfilled a)
    | (log', Rejected e) => handler e log'
    end.

(** [await p] for an already settled promise. *)
Definition await {A : Type} (p : settled A) : IO A := fun log => (log, p).

(** An expression evaluated inside an async function. *)
Definition lift {A : Type} (m : eval A) : IO A :=
  match m with
  | Val a => ret a
  | TypeErr msg => throw (JsTypeError msg)
  end.

(** How an async function settles on an expression it returns. *)
Definition settle {A : Type} (m : eval A) : settled A :=
  match m with
  | Val a => Fulfilled a
  | TypeErr msg => Rejected (JsTypeError msg)
  end.

(** [await fetch(url)]. *)
Definition fetch (net : network) (url : request) : IO response :=
  fun log => (log ++ [url], net log url)%list.

(** ** getCast (lines 28-44) *)

Definition endpoint (username hash : string) : request :=
  "https://client.warpcast.com/v2/user-thread-casts?castHashPrefix=" ++ hash
  ++ "&username=" ++ username ++ "&limit=5".

(** [cast.result.casts[i]]. *)
Definition casts_at (cast : value) (i : string) : eval value :=
  r <- get cast "result" ;; cs <- get r "casts" ;; get cs i.

Definition unable_to_fetch : thrown := JsError "Unable to fetch cast.".

Definition getCast (net : network) (username hash : string) : IO value :=
  try_catch
    (res <~ fetch net (endpoint username hash) ;;
     cast <~ await (json res) ;;
     (* Handle skipping root-embed casts which are empty parents for a cast
        in a channel. *)
     ty <~ lift (c0 <- casts_at cast "0" ;; get c0 "castType") ;;
     if strict_eq_str ty "root-embed"
     then lift (casts_at cast "1")
     else lift (casts_at cast "0"))
    (fun _ => throw unable_to_fetch).

(** What the thread endpoint answered to getCast's request: a parsed body
    holding [casts]. *)
Definition answered (net : network) (username hash : string) (log : list request)
    (body : value) (casts : list value) : Prop :=
  net log (endpoint username hash) = Fulfilled {| json := Fulfilled body |}
  /\ exists r, get body "result" = Val r /\ get r "casts" = Val (VArr casts).

(** ** The element tree

    What a JSX expression evaluates to: an element with its props and its
    children, or a JavaScript value in child position.  An element written
    with a key lists under [key] the key that element creation gives it
    ([element_key]).  Creating an element does not call its component. *)
Inductive node : Type :=
| Expr (v : value)
| Element (type : string) (props : list (string * value)) (children : list node).

Definition text (s : string) : node := Expr (VStr s).

(** [a && <jsx/>]. *)
Definition and_node (a : value) (b : eval node) : eval node :=
  if truthy a then b else Val (Expr a).

(** [v.map(f)] on a value from JSON: only an array has a [map] method. *)
Definition call_map (v : value) (f : value -> eval node) : eval (list node) :=
  match v with
  | VArr l => emap f l
  | VUndef | VNull =>
      TypeErr ("Cannot read properties of " ++ value_name v ++ " (reading 'map')")
  | _ => TypeErr "map is not a function"
  end.

(** Lines 23-26. *)
Definition linkifyOptions : value :=
  VObj [("className", VStr "farcaster-embed-body-link"); ("target", VStr "_blank")].

(** The children of an element; a value in child position has none. *)
Definition children (n : node) : list node :=
  match n with
  | Element _ _ kids => kids
  | Expr _ => []
  end.

(** The node reached by following child positions from the root. *)
Fixpoint descend (path : list nat) (n : node) : option node :=
  match path with
  | [] => Some n
  | i :: rest =>
      match nth_error (children n) i with
      | Some k => descend rest k
      | None => None
      end
  end.

(** The image embeds of a rendered tree: the children of the second child
    of the body block (none when that child is not an element). *)
Definition imageEmbeds (tree : node) : list node :=
  match descend [1; 1] tree with
  | Some c => children c
  | None => []
  end.

(** The video embeds: the children of the third child of the body block. *)
Definition videoEmbeds (tree : node) : list node :=
  match descend [1; 2] tree with
  | Some c => children c
  | None => []
  end.

(** ** FarcasterEmbed (lines 55-191) *)

(** The constants of lines 68-88. *)
Record locals : Type := {
  author : value;
  profileUrl : string;
  timestamp : string;
  warpcastUrl : string;
  replies : value;
  likes : value;
  recasts : value;
  watches : value;
  images : value;
  hasImages : value;
  hasVideos : value;
  videos : value
}.

Definition invalid_input : thrown :=
  JsError "You must provide a Warpcast URL or username and hash to embed a cast.".

(** Lines 57-61: a truthy [url] replaces [username] and [hash]. *)
Definition identify (url username hash : option string)
  : option string * option string :=
  match url with
  | Some u =>
      if negb (String.eqb u "")
      then let urlParts := split_slash u in
           (nth_error urlParts 3, nth_error urlParts 4)
      else (username, hash)
  | None => (username, hash)
  end.

(** [!s] for an optional string. *)
Definition missing (s : option string) : bool :=
  match s with
  | Some t => String.eqb t ""
  | None => true
  end.

(** Whether [s] contains the separator of [split]. *)
Fixpoint has_slash (s : string) : bool :=
  match s with
  | EmptyString => false
  | String c r => (Ascii.eqb c "/"%char || has_slash r)%bool
  end.

(** The number of separators in [s]. *)
Fixpoint count_slash (s : string) : nat :=
  match s with
  | EmptyString => 0
  | String c r => if Ascii.eqb c "/"%char then S (count_slash r) else count_slash r
  end.

(** A canonical cast URL: https://warpcast.com/<handle>/<hash>, handle and
    hash non-empty. *)
Definition canonical_url (url : string) : bool :=
  match split_slash url with
  | [scheme; empty; site; handle; hash] =>
      (String.eqb scheme "https:" && String.eqb empty ""
       && String.eqb site "warpcast.com"
       && negb (String.eqb handle "") && negb (String.eqb hash ""))%bool
  | _ => false
  end.

(** [link] names the author of [url] and a hash that the hash of [url]
    abbreviates. *)
Definition same_cast (link url : string) : bool :=
  match identify (Some link) None None, identify (Some url) None None with
  | (Some a, Some b), (Some a', Some b') => (String.eqb a a' && String.prefix b' b)%bool
  | _, _ => false
  end.

Section Mapper.

Context (host : Host).

(** Line 69. *)
Definition profileUrl_of (author : value) : eval string :=
  fid <- get author "fid" ;;
  fid_s <- ToString host fid ;;
  Val ("https://warpcast.com/~/profiles/" ++ fid_s).

(** Lines 70-79. *)
Definition timestamp_of (cast : value) : eval string :=
  published <- get cast "timestamp" ;; formatTimestamp host published.

(** Line 80. *)
Definition warpcastUrl_of (cast author : value) : eval string :=
  name <- get author "username" ;;
  name_s <- ToString host name ;;
  hash <- get cast "hash" ;;
  hash_s <- ToString host hash ;;
  Val ("https://warpcast.com/" ++ name_s ++ "/" ++ hash_s).

(** Lines 81, 82 and 84: [cast.k && cast.k.count]. *)
Definition count_of (cast : value) (k : string) : eval value :=
  sub <- get cast k ;;
  and_then sub (sub' <- get cast k ;; get sub' "count").

(** Line 83. *)
Definition recasts_of (cast : value) : eval value :=
  c <- get cast "combinedRecastCount" ;;
  if truthy c then get cast "combinedRecastCount"
  else rc <- get cast "recasts" ;; get rc "count".

(** Lines 85 and 88: [cast.embeds && cast.embeds.k]. *)
Definition embeds_of (cast : value) (k : string) : eval value :=
  e <- get cast "embeds" ;;
  and_then e (e' <- get cast "embeds" ;; get e' k).

(** Line 86. *)
Definition hasImages_of (images : value) : eval value :=
  and_then images (n <- get images "length" ;; gt_zero host n).

(** Line 87. *)
Definition hasVideos_of (cast : value) : eval value :=
  ev <- embeds_of cast "videos" ;;
  and_then ev (e <- get cast "embeds" ;; vs <- get e "videos" ;;
               n <- get vs "length" ;; gt_zero host n).

(** Lines 68-88, in the order the source evaluates them. *)
Definition derive (cast : value) : eval locals :=
  author <- get cast "author" ;;
  profileUrl <- profileUrl_of author ;;
  timestamp <- timestamp_of cast ;;
  warpcastUrl <- warpcastUrl_of cast author ;;
  replies <- count_of cast "replies" ;;
  likes <- count_of cast "reactions" ;;
  recasts <- recasts_of cast ;;
  watches <- count_of cast "watches" ;;
  images <- embeds_of cast "images" ;;
  hasImages <- hasImages_of images ;;
  hasVideos <- hasVideos_of cast ;;
  videos <- embeds_of cast "videos" ;;
  Val {| author := author; profileUrl := profileUrl; timestamp := timestamp;
         warpcastUrl := warpcastUrl; replies := replies; likes := likes;
         recasts := recasts; watches := watches; images := images;
         hasImages := hasImages; hasVideos := hasVideos; videos := videos |}.

(** The key of a created element.  Element creation leaves the key null
    when the key expression is [undefined] and otherwise coerces it to a
    string (["" + key]), which raises for a value that has no string
    conversion. *)
Definition element_key (k : value) : eval value :=
  match k with
  | VUndef => Val VNull
  | _ => s <- ToString host k ;; Val (VStr s)
  end.

(** Lines 116-122: the callback of [images.map].  The expressions are
    evaluated first; the element is created, and its key coerced, last. *)
Definition imageLink (image : value) : eval node :=
  url <- get image "url" ;;
  href <- get image "url" ;;
  src <- get image "url" ;;
  alt <- get image "alt" ;;
  key <- element_key url ;;
  Val (Element "a"
         [("key", key); ("href", href); ("target", VStr "_blank");
          ("className", VStr "farcaster-embed-image-link")]
         [Element "img"
            [("src", src); ("alt", alt); ("className", VStr "farcaster-embed-image")]
            []]).

(** Lines 127-136: the callback of [videos.map]; the key is coerced when
    the element is created, after its props are evaluated. *)
Definition videoPlayer (video : value) : eval node :=
  url <- get video "url" ;;
  source <- get video "sourceUrl" ;;
  width <- get video "width" ;;
  height <- get video "height" ;;
  aspectRatio <- js_div host width height ;;
  poster <- get video "thumbnailUrl" ;;
  key <- element_key url ;;
  Val (Element "VideoPlayer"
         [("key", key); ("source", source); ("aspectRatio", aspectRatio);
          ("poster", poster)]
         []).

(** Lines 114-124. *)
Definition imageContainer (v : locals) : eval node :=
  and_node (hasImages v)
    (links <- call_map (images v) imageLink ;;
     Val (Element "div" [("className", VStr "farcaster-embed-image-container")] links)).

(** Lines 125-138. *)
Definition videoContainer (v : locals) : eval node :=
  and_node (hasVideos v)
    (players <- call_map (videos v) videoPlayer ;;
     Val (Element "div" [("className", VStr "farcaster-embed-video-container")] players)).

(** Lines 140-155. *)
Definition channel (cast : value) : eval node :=
  tags <- get cast "tags" ;;
  n <- get tags "length" ;;
  shown <- gt_zero host n ;;
  and_node shown
    (t0 <- (ts <- get cast "tags" ;; t <- get ts "0" ;; get t "imageUrl") ;;
     avatar <- and_node t0
       (src <- (ts <- get cast "tags" ;; t <- get ts "0" ;; get t "imageUrl") ;;
        alt <- (ts <- get cast "tags" ;; t <- get ts "0" ;; get t "name") ;;
        Val (Element "img"
               [("src", src); ("alt", alt); ("width", VNum 16); ("height", VNum 16);
                ("className", VStr "farcaster-embed-channel-avatar")]
               [])) ;;
     n0 <- (ts <- get cast "tags" ;; t <- get ts "0" ;; get t "name") ;;
     label <- and_node n0
       (nm <- (ts <- get cast "tags" ;; t <- get ts "0" ;; get t "name") ;;
        Val (Element "p" [("className", VStr "farcaster-embed-channel-name")] [Expr nm])) ;;
     Val (Element "div" []
            [Element "div" [("className", VStr "farcaster-embed-channel")]
               [avatar; label]])).

(** One entry of the statistics list (lines 158-181). *)
Definition stat (href : string) (icon : string) (count : value) : eval node :=
  shown <- toLocaleString host count ;;
  Val (Element "li" []
         [Element "a"
            [("className", VStr "farcaster-embed-stats-link"); ("href", VStr href);
             ("target", VStr "_blank")]
            [Element icon [] []; Element "span" [] [text shown]]]).

(** Lines 90-190: the returned JSX, its expressions evaluated in source
    order. *)
Definition view (cast : value) (v : locals) : eval node :=
  pfp <- get (author v) "pfp" ;;
  avatar <- get pfp "url" ;;
  name <- get (author v) "username" ;;
  name_s <- ToString host name ;;
  displayName <- get (author v) "displayName" ;;
  handle <- get (author v) "username" ;;
  body <- get cast "text" ;;
  imgs <- imageContainer v ;;
  vids <- videoContainer v ;;
  chan <- channel cast ;;
  li_replies <- stat (warpcastUrl v) "ReplyIcon" (replies v) ;;
  li_recasts <- stat (warpcastUrl v) "RecastIcon" (recasts v) ;;
  li_likes <- stat (warpcastUrl v) "LikeIcon" (likes v) ;;
  li_watches <- stat (warpcastUrl v) "WatchIcon" (watches v) ;;
  Val (Element "div" [("className", VStr "not-prose farcaster-embed-container")]
    [Element "div" [("className", VStr "farcaster-embed-metadata")]
       [Element "a" [("href", VStr (profileUrl v));
                     ("className", VStr "farcaster-embed-avatar-link")]
          [Element "img"
             [("src", avatar); ("alt", VStr ("@" ++ name_s)); ("width", VNum 48);
              ("height", VNum 48); ("className", VStr "farcaster-embed-author-avatar")]
             []];
        Element "div" [("className", VStr "farcaster-embed-author")]
          [Element "p" [("className", VStr "farcaster-embed-author-display-name")]
             [Expr displayName];
           Element "p" [("className", VStr "farcaster-embed-author-username")]
             [text "@"; Expr handle]];
        Element "div" [("className", VStr "farcaster-embed-timestamp")]
          [Element "p" [] [text (timestamp v)]]];
     Element "div" [("className", VStr "farcaster-embed-body")]
       [Element "Linkify"
          [("as", VStr "p"); ("options", linkifyOptions)]
          [Expr body];
        imgs;
        vids];
     chan;
     Element "div" [("className", VStr "farcaster-embed-stats")]
       [Element "ul" [] [li_replies; li_recasts; li_likes; li_watches];
        Element "div" [("className", VStr "farcaster-embed-warpcast-icon")]
          [Element "a"
             [("href", VStr (warpcastUrl v)); ("title", VStr "Show on Warpcast");
              ("target", VStr "_blank"); ("className", VStr "farcaster-embed-warpcast-link")]
             [Element "WarpcastIcon" [] []]]]]).

(** Lines 68-190 on a resolved cast. *)
Definition render (cast : value) : eval node :=
  v <- derive cast ;; view cast v.

Definition FarcasterEmbed (net : network) (url username hash : option string)
  : IO node :=
  match identify url username hash with
  | (username, hash) =>
      match username, hash with
      | Some u, Some h =>
          if (String.eqb u "" || String.eqb h "")%bool then throw invalid_input
          else cast <~ getCast net u h ;; lift (render cast)
      | _, _ => throw invalid_input
      end
  end.

End Mapper.









(** ** The shape of a cast

    The shape the type annotations of the source describe: the fields the
    mapper reads without a guard are there, counters are numbers, media
    entries are objects.  [well_shaped] decides it. *)

Definition primitive (v : value) : bool :=
  match v with
  | VArr _ | VObj _ => false
  | _ => true
  end.

Definition is_number (v : value) : bool :=
  match v with
  | VNum _ => true
  | _ => false
  end.

Definition is_object (v : value) : bool :=
  match v with
  | VObj _ => true
  | _ => false
  end.

(** [v.k] where the read cannot raise; [undefined] where it would. *)
Definition field (v : value) (k : string) : value :=
  match get v k with
  | Val w => w
  | TypeErr _ => VUndef
  end.

(** [{ count: number }]. *)
Definition counter_ok (sub : value) : bool :=
  (is_object sub && is_number (field sub "count"))%bool.

(** A truthy [combinedRecastCount] must be a number; otherwise [recasts]
    must be a counter. *)
Definition recasts_ok (cast : value) : bool :=
  if truthy (field cast "combinedRecastCount")
  then is_number (field cast "combinedRecastCount")
  else counter_ok (field cast "recasts").

(** [CastImage]: not null, with a [url] that converts to a string (it is
    the element's key). *)
Definition image_ok (image : value) : bool :=
  (negb (nullish image) && primitive (field image "url"))%bool.

(** [CastVideo]: not null, with a [url] that converts to a string (it is
    the element's key) and [width] and [height] that convert to numbers. *)
Definition video_ok (video : value) : bool :=
  (negb (nullish video) && primitive (field video "url")
   && primitive (field video "width") && primitive (field video "height"))%bool.

(** An optional list of media entries. *)
Definition media_ok (entry_ok : value -> bool) (m : value) : bool :=
  match m with
  | VUndef | VNull => true
  | VArr l => forallb entry_ok l
  | _ => false
  end.

Definition embeds_ok (e : value) : bool :=
  match e with
  | VUndef | VNull => true
  | VObj _ => (media_ok image_ok (field e "images")
               && media_ok video_ok (field e "videos"))%bool
  | _ => false
  end.

(** [tags] is an array whose first entry, if any, is not null. *)
Definition tags_ok (tags : value) : bool :=
  match tags with
  | VArr [] => true
  | VArr (t :: _) => negb (nullish t)
  | _ => false
  end.

Definition author_ok (a : value) : bool :=
  (is_object a && primitive (field a "fid") && primitive (field a "username")
   && negb (nullish (field a "pfp")))%bool.

Definition well_shaped (cast : value) : bool :=
  (is_object cast && author_ok (field cast "author")
   && primitive (field cast "hash") && primitive (field cast "timestamp")
   && counter_ok (field cast "replies") && counter_ok (field cast "reactions")
   && recasts_ok cast && counter_ok (field cast "watches")
   && embeds_ok (field cast "embeds") && tags_ok (field cast "tags"))%bool.

(** The value of prop [k] of an element. *)
Definition prop (n : node) (k : string) : option value :=
  match n with
  | Element _ props _ => own props k
  | Expr _ => None
  end.

(** The statistics entry of lines 158-163, for a count already formatted. *)
Definition stat_item (href icon shown : string) : node :=
  Element "li" []
    [Element "a"
       [("className", VStr "farcaster-embed-stats-link"); ("href", VStr href);
        ("target", VStr "_blank")]
       [Element icon [] []; Element "span" [] [text shown]]].

(** Lines 143-151: the channel icon, or the falsy [imageUrl] in its place. *)
Definition badge_avatar (tag : value) : node :=
  if truthy (field tag "imageUrl")
  then Element "img"
         [("src", field tag "imageUrl"); ("alt", field tag "name");
          ("width", VNum 16); ("height", VNum 16);
          ("className", VStr "farcaster-embed-channel-avatar")]
         []
  else Expr (field tag "imageUrl").

(** Line 152: the channel name, or the falsy [name] in its place. *)
Definition badge_name (tag : value) : node :=
  if truthy (field tag "name")
  then Element "p" [("className", VStr "farcaster-embed-channel-name")]
         [Expr (field tag "name")]
  else Expr (field tag "name").

(** ** A host for the examples

    Exact on the integers the examples format; the examples never depend on
    how a fraction prints, and they use one instant. *)

(** The integer a float denotes, when it denotes one. *)
Definition integer_of_float (x : float) : option Z :=
  match Prim2SF x with
  | S754_zero _ => Some 0%Z
  | S754_finite neg m e =>
      let mag := if (0 <=? e)%Z then Some (Z.pos m * 2 ^ e)%Z
                 else if (Z.pos m mod 2 ^ (- e) =? 0)%Z
                      then Some (Z.pos m / 2 ^ (- e))%Z else None in
      match mag with
      | Some z => Some (if neg then (- z)%Z else z)
      | None => None
      end
  | _ => None
  end.

Definition digit_char (d : Z) : ascii := ascii_of_nat (48 + Z.to_nat d).

Fixpoint decimal_digits (fuel : nat) (n : Z) (acc : string) : string :=
  match fuel with
  | O => acc
  | S fuel' =>
      let acc' := String (digit_char (n mod 10)) acc in
      if (n / 10 =? 0)%Z then acc' else decimal_digits fuel' (n / 10)%Z acc'
  end.

(** Decimal digits of a natural number; a number has no more digits than
    bits. *)
Definition decimal_of_N (n : Z) : string :=
  decimal_digits (S (Z.to_nat (Z.log2 n))) n "".

Definition decimal_of_Z (z : Z) : string :=
  if (z <? 0)%Z then "-" ++ decimal_of_N (- z) else decimal_of_N z.

(** Groups of three digits, separated by commas, from the right. *)
Fixpoint group3 (digits : list ascii) : list ascii :=
  match digits with
  | a :: b :: c :: ((_ :: _) as rest) => a :: b :: c :: ","%char :: group3 rest
  | _ => digits
  end.

Definition grouped (s : string) : string :=
  string_of_list_ascii (rev (group3 (rev (list_ascii_of_string s)))).

Definition sample_host : Host := {|
  NumberToString x :=
    match integer_of_float x with Some z => decimal_of_Z z | None => "NaN" end;
  StringToNumber s :=
    match digits_value s 0 with
    | Some n => float_of_nat n
    | None => PrimFloat.nan
    end;
  NumberToLocaleString x :=
    match integer_of_float x with
    | Some z => if (z <? 0)%Z then "-" ++ grouped (decimal_of_N (- z))
                else grouped (decimal_of_N z)
    | None => "NaN"
    end;
  DateParse _ := PrimFloat.nan;
  (* knows one instant, 2024-03-05T14:07:00Z, rendered in UTC *)
  DateToLocaleString t :=
    if PrimFloat.eqb t 1709647620000 then "Mar 5, 2024, 2:07 PM" else "Invalid Date"
|}.

(** A thread as the provider returns it for a cast in a channel: the empty
    root-embed parent first, the cast itself second. *)
Definition sample_cast : value :=
  VObj [("hash", VStr "0x0de97199e1c4d0a5f3b0a3f2e6d3c1b2a4958677");
        ("castType", VStr "cast");
        ("author", VObj [("fid", VNum 3); ("username", VStr "dwr");
                         ("displayName", VStr "Dan");
                         ("pfp", VObj [("url", VStr "https://i.example/dwr.png")])]);
        ("text", VStr "gm");
        ("timestamp", VNum 1709647620000);
        ("replies", VObj [("count", VNum 4)]);
        ("reactions", VObj [("count", VNum 1234)]);
        ("recasts", VObj [("count", VNum 7)]);
        ("combinedRecastCount", VNum 0);
        ("watches", VObj [("count", VNum 2)]);
        ("embeds",
         VObj [("images", VArr [VObj [("type", VStr "image");
                                      ("url", VStr "https://i.example/a.png");
                                      ("sourceUrl", VStr "https://s.example/a.png");
                                      ("alt", VStr "first")];
                                VObj [("type", VStr "image");
                                      ("url", VStr "https://i.example/b.png");
                                      ("sourceUrl", VStr "https://s.example/b.png");
                                      ("alt", VStr "second")]]);
               ("videos", VArr [VObj [("type", VStr "video");
                                      ("url", VStr "https://v.example/a.m3u8");
                                      ("sourceUrl", VStr "https://s.example/a.m3u8");
                                      ("width", VNum 1920); ("height", VNum 1080);
                                      ("duration", VNum 12);
                                      ("thumbnailUrl", VStr "https://v.example/a.jpg")]])]);
        ("tags", VArr [VObj [("type", VStr "channel"); ("name", VStr "dev");
                             ("imageUrl", VStr "https://i.example/dev.png")]])].

Definition sample_wrapper : value :=
  VObj [("hash", VStr "0x00000000"); ("castType", VStr "root-embed")].

Definition thread (casts : list value) : value :=
  VObj [("result", VObj [("casts", VArr casts)])].

(** A network that answers every request with the same parsed body. *)
Definition serving (body : value) : network :=
  fun _ _ => Fulfilled {| json := Fulfilled body |}.

(** The cast a reply hangs under, by another author. *)
Definition parent_cast : value :=
  VObj [("hash", VStr "0x9f2c4b7a11d0e8c35a6f0b2d4c8e1a3f5b7d9e02");
        ("castType", VStr "cast");
        ("author", VObj [("fid", VNum 5650); ("username", VStr "vitalik.eth");
                         ("displayName", VStr "Vitalik");
                         ("pfp", VObj [("url", VStr "https://i.example/v.png")])]);
        ("text", VStr "hello");
        ("timestamp", VNum 1709647620000);
        ("replies", VObj [("count", VNum 1)]);
        ("reactions", VObj [("count", VNum 9)]);
        ("recasts", VObj [("count", VNum 0)]);
        ("combinedRecastCount", VNum 12);
        ("watches", VObj [("count", VNum 0)]);
        ("tags", VArr [])].

(** [v] without its own property [k]. *)
Definition drop_prop (k : string) (v : value) : value :=
  match v with
  | VObj o => VObj (filter (fun kv => negb (String.eqb (fst kv) k)) o)
  | _ => v
  end.

(** [v] with own property [k] set to [w]. *)
Definition set_prop (k : string) (w : value) (v : value) : value :=
  match drop_prop k v with
  | VObj o => VObj ((k, w) :: o)
  | other => other
  end.

(** A video entry without [width]. *)
Definition video_no_width : value :=
  VObj [("type", VStr "video"); ("url", VStr "https://v.example/b.m3u8");
        ("sourceUrl", VStr "https://s.example/b.m3u8"); ("height", VNum 1080);
        ("thumbnailUrl", VStr "https://v.example/b.jpg")].

(** An image entry whose [url] has no string conversion: an object with an
    own, hence not callable, [toString]. *)
Definition image_unkeyable : value :=
  VObj [("type", VStr "image"); ("url", VObj [("toString", VNum 1)]);
        ("sourceUrl", VStr "https://s.example/c.png"); ("alt", VStr "third")].

Definition sample_url : string := "https://warpcast.com/dwr/0x0de97199".

Definition sample_request : request := endpoint "dwr" "0x0de97199".

(** A network on which every request fails. *)
Definition offline : network :=
  fun _ _ => Rejected (JsTypeError "fetch failed").

(** A network that answers with a body that is not JSON. *)
Definition garbled : network :=
  fun _ _ => Fulfilled {| json := Rejected (JsSyntaxError "Unexpected token < in JSON") |}.

(** A network whose first answer fails and whose later answers succeed. *)
Definition flaky : network :=
  fun log _ =>
    match log with
    | [] => Rejected (JsTypeError "fetch failed")
    | _ => Fulfilled {| json := Fulfilled (thread [sample_cast]) |}
    end.

Definition cast_0_7 : value :=
  VObj [("combinedRecastCount", VNum 0); ("recasts", VObj [("count", VNum 7)])].

Definition cast_12 : value :=
  VObj [("combinedRecastCount", VNum 12); ("recasts", VObj [("count", VNum 7)])].

(** * Properties *)

(** ** Evaluation lemmas *)

Arguments get : simpl never.
Arguments ToString : simpl never.
Arguments toLocaleString : simpl never.

Lemma ebind_Val_inv {A B : Type} (m : eval A) (k : A -> eval B) (b : B) :
  ebind m k = Val b -> exists a, m = Val a /\ k a = Val b.
Proof.
  destruct m as [a | msg]; simpl; intros H.
  - exists a. split; [reflexivity | exact H].
  - discriminate H.
Qed.

Lemma and_then_truthy (a : value) (b : eval value) :
  truthy a = true -> and_then a b = b.
Proof. intros H. unfold and_then. rewrite H. reflexivity. Qed.

Lemma and_then_falsy (a : value) (b : eval value) :
  truthy a = false -> and_then a b = Val a.
Proof. intros H. unfold and_then. rewrite H. reflexivity. Qed.

Lemma get_index0 (l : list value) : get (VArr l) "0" = Val (nth 0 l VUndef).
Proof. reflexivity. Qed.

Lemma get_index1 (l : list value) : get (VArr l) "1" = Val (nth 1 l VUndef).
Proof. reflexivity. Qed.

Lemma get_undefined (k : string) : exists msg, get VUndef k = TypeErr msg.
Proof. simpl. eexists. reflexivity. Qed.

Lemma lift_settles {A : Type} (m : eval A) (log : list request) :
  lift m log = (log, settle m).
Proof. destruct m; reflexivity. Qed.

(** Splits one [x <- m ;; k] equation that ended in a value. *)
Ltac ebind_inv H :=
  let a := fresh "a" in
  let Ha := fresh "E" in
  apply ebind_Val_inv in H; destruct H as [a [Ha H]].

(** ** The resolver *)

Section Resolver.

Variable net : network.
Variables username hash : string.
Variable log : list request.

Lemma casts_at_answered (body : value) (casts : list value) :
  answered net username hash log body casts ->
  casts_at body "0" = Val (nth 0 casts VUndef)
  /\ casts_at body "1" = Val (nth 1 casts VUndef).
Proof.
  intros [_ [r [Hr Hcs]]]. unfold casts_at. rewrite Hr. simpl. rewrite Hcs.
  split; reflexivity.
Qed.

Lemma getCast_answered (body : value) (casts : list value) (ty : value) :
  answered net username hash log body casts ->
  get (nth 0 casts VUndef) "castType" = Val ty ->
  getCast net username hash log
  = ((log ++ [endpoint username hash])%list,
     Fulfilled (if strict_eq_str ty "root-embed"
                then nth 1 casts VUndef else nth 0 casts VUndef)).
Proof.
  intros Hans Hty.
  destruct (casts_at_answered body casts Hans) as [H0 H1].
  destruct Hans as [Hnet _].
  unfold getCast, try_catch, iobind, fetch, await.
  rewrite Hnet. simpl json. cbv beta iota. rewrite H0, H1. simpl ebind. rewrite Hty.
  simpl lift. unfold ret.
  destruct (strict_eq_str ty "root-embed"); reflexivity.
Qed.

(** C1: for a response with at least two posts, getCast returns the second
    post when the first post's [castType] is "root-embed" and the first post,
    unchanged, otherwise; so it returns the second of two distinct posts if
    and only if the first is so marked.  It issues the one request. *)
Theorem getCast_selects (body first second : value) (rest : list value) (ty : value) :
  answered net username hash log body (first :: second :: rest) ->
  get first "castType" = Val ty ->
  getCast net username hash log
  = ((log ++ [endpoint username hash])%list,
     Fulfilled (if strict_eq_str ty "root-embed" then second else first))
  /\ (strict_eq_str ty "root-embed" = true <-> ty = VStr "root-embed")
  /\ (first <> second ->
      (snd (getCast net username hash log) = Fulfilled second
       <-> ty = VStr "root-embed")).
Proof.
  intros Hans Hty.
  assert (Hmark : strict_eq_str ty "root-embed" = true <-> ty = VStr "root-embed").
  { destruct ty; simpl; split; intros H; try discriminate H.
    - apply String.eqb_eq in H. now subst.
    - injection H as ->. apply String.eqb_refl. }
  pose proof (getCast_answered body (first :: second :: rest) ty Hans Hty) as Hg.
  simpl nth in Hg.
  split; [exact Hg |]. split; [exact Hmark |].
  intros Hne. rewrite Hg. simpl snd.
  destruct (strict_eq_str ty "root-embed").
  - split; [intros _; now apply Hmark | reflexivity].
  - split.
    + intros H. injection H as H. contradiction.
    + intros H. apply Hmark in H. discriminate H.
Qed.

(** C5: when [fetch] rejects, or the response's [json()] rejects, getCast
    rejects with the one generic error, whatever the underlying error was,
    after exactly one request. *)
Theorem getCast_wraps_failure (e : thrown) :
  net log (endpoint username hash) = Rejected e
  \/ net log (endpoint username hash) = Fulfilled {| json := Rejected e |} ->
  getCast net username hash log
  = ((log ++ [endpoint username hash])%list, Rejected unable_to_fetch).
Proof.
  intros [H | H]; unfold getCast, try_catch, iobind, fetch, await;
    rewrite H; reflexivity.
Qed.

Lemma getCast_wraps_failure_any (e : thrown) :
  net log (endpoint username hash) = Rejected e
  \/ net log (endpoint username hash) = Fulfilled {| json := Rejected e |} ->
  getCast net username hash log
  = ((log ++ [endpoint username hash])%list, Rejected unable_to_fetch).
Proof.
  intros [H | H]; unfold getCast, try_catch, iobind, fetch, await;
    rewrite H; reflexivity.
Qed.

(** Whatever the network does, getCast issues exactly one request and, when
    it rejects, rejects with the generic error. *)
Lemma getCast_one_request :
  exists r, getCast net username hash log = ((log ++ [endpoint username hash])%list, r)
            /\ (forall e, r = Rejected e -> e = unable_to_fetch).
Proof.
  unfold getCast, try_catch, iobind, fetch, await.
  destruct (net log (endpoint username hash)) as [[[body | e]] | e];
    simpl json; cbv beta iota.
  - rewrite lift_settles.
    destruct (ebind _ _) as [ty | msg]; unfold settle; cbv beta iota.
    + destruct (strict_eq_str ty "root-embed"); rewrite lift_settles;
        destruct (casts_at body _); unfold settle, throw; cbv beta iota;
        eexists; (split; [reflexivity | intros e H; congruence]).
    + unfold throw. eexists; split; [reflexivity | intros e0 H; congruence].
  - unfold throw. eexists; split; [reflexivity | intros e0 H; congruence].
  - unfold throw. eexists; split; [reflexivity | intros e0 H; congruence].
Qed.

End Resolver.

(** ** The mapper *)

Section MapperFacts.

Context (host : Host).

(** What a successful [derive] says about each constant. *)
Lemma derive_inv (cast : value) (v : locals) :
  derive host cast = Val v ->
  get cast "author" = Val (author v)
  /\ warpcastUrl_of host cast (author v) = Val (warpcastUrl v)
  /\ count_of cast "replies" = Val (replies v)
  /\ count_of cast "reactions" = Val (likes v)
  /\ recasts_of cast = Val (recasts v)
  /\ count_of cast "watches" = Val (watches v)
  /\ embeds_of cast "images" = Val (images v)
  /\ hasImages_of host (images v) = Val (hasImages v)
  /\ hasVideos_of host cast = Val (hasVideos v)
  /\ embeds_of cast "videos" = Val (videos v).
Proof.
  unfold derive. intros H.
  do 12 ebind_inv H.
  injection H as <-. simpl. repeat split; assumption.
Qed.

(** What a successful [view] says about the blocks it assembled. *)
Lemma view_inv (cast : value) (v : locals) (tree : node) :
  view host cast v = Val tree ->
  exists meta linkify imgs vids chan s1 s2 s3 s4 icon,
    tree = Element "div" [("className", VStr "not-prose farcaster-embed-container")]
             [meta;
              Element "div" [("className", VStr "farcaster-embed-body")]
                [linkify; imgs; vids];
              chan;
              Element "div" [("className", VStr "farcaster-embed-stats")]
                [Element "ul" [] [s1; s2; s3; s4]; icon]]
    /\ imageContainer host v = Val imgs
    /\ videoContainer host v = Val vids
    /\ stat host (warpcastUrl v) "ReplyIcon" (replies v) = Val s1
    /\ stat host (warpcastUrl v) "RecastIcon" (recasts v) = Val s2
    /\ stat host (warpcastUrl v) "LikeIcon" (likes v) = Val s3
    /\ stat host (warpcastUrl v) "WatchIcon" (watches v) = Val s4.
Proof.
  unfold view. intros H.
  do 14 ebind_inv H.
  injection H as <-.
  do 10 eexists. split; [reflexivity |]. repeat split; assumption.
Qed.

Lemma stat_inv (href icon : string) (count : value) (li : node) :
  stat host href icon count = Val li ->
  exists shown, toLocaleString host count = Val shown.
Proof.
  unfold stat. intros H. ebind_inv H. eexists. eassumption.
Qed.


Lemma count_of_absent (cast : value) (k : string) :
  get cast k = Val VUndef -> count_of cast k = Val VUndef.
Proof. intros H. unfold count_of. rewrite H. reflexivity. Qed.

Lemma count_of_present (cast : value) (k : string) (sub : value) :
  get cast k = Val sub -> truthy sub = true ->
  count_of cast k = get sub "count".
Proof.
  intros H Ht. unfold count_of. rewrite H. simpl ebind.
  rewrite (and_then_truthy _ _ Ht). reflexivity.
Qed.

(** C2: the recast count is [combinedRecastCount] when that field is truthy
    (for a number: neither zero nor NaN) and [recasts.count] otherwise; that
    is the value [derive] stores. *)
Theorem recasts_derivation (cast c : value) :
  get cast "combinedRecastCount" = Val c ->
  recasts_of cast
  = (if truthy c then Val c else rc <- get cast "recasts" ;; get rc "count")
  /\ (forall v, derive host cast = Val v -> recasts_of cast = Val (recasts v))
  /\ (forall x, c = VNum x ->
        truthy c = negb (PrimFloat.eqb x 0 || PrimFloat.is_nan x)).
Proof.
  intros Hc. split; [| split].
  - unfold recasts_of. rewrite Hc. simpl ebind.
    destruct (truthy c); reflexivity.
  - intros v Hv. apply derive_inv in Hv. tauto.
  - intros x ->. reflexivity.
Qed.

(** C4: reply, like and watch counts are the [count] of the [replies],
    [reactions] and [watches] sub-object when it is present, and stay
    [undefined], not 0, when it is absent. *)
Theorem counts_derivation (cast : value) (v : locals) :
  derive host cast = Val v ->
  (forall o, get cast "replies" = Val (VObj o) -> get (VObj o) "count" = Val (replies v))
  /\ (forall o, get cast "reactions" = Val (VObj o) -> get (VObj o) "count" = Val (likes v))
  /\ (forall o, get cast "watches" = Val (VObj o) -> get (VObj o) "count" = Val (watches v))
  /\ (get cast "replies" = Val VUndef -> replies v = VUndef)
  /\ (get cast "reactions" = Val VUndef -> likes v = VUndef)
  /\ (get cast "watches" = Val VUndef -> watches v = VUndef).
Proof.
  intros Hv. apply derive_inv in Hv.
  destruct Hv as (_ & _ & Hr & Hl & _ & Hw & _).
  repeat split.
  - intros o H. rewrite <- Hr. symmetry. now apply count_of_present.
  - intros o H. rewrite <- Hl. symmetry. now apply count_of_present.
  - intros o H. rewrite <- Hw. symmetry. now apply count_of_present.
  - intros H. rewrite (count_of_absent _ _ H) in Hr. congruence.
  - intros H. rewrite (count_of_absent _ _ H) in Hl. congruence.
  - intros H. rewrite (count_of_absent _ _ H) in Hw. congruence.
Qed.


End MapperFacts.

(** ** The entry point *)

Section EntryPoint.

Context (host : Host).
Variable net : network.

(** getCast on a parsed body, as one equation. *)
Lemma getCast_parsed (u h : string) (log : list request) (body : value) :
  net log (endpoint u h) = Fulfilled {| json := Fulfilled body |} ->
  getCast net u h log
  = ((log ++ [endpoint u h])%list,
     match c0 <- casts_at body "0" ;; get c0 "castType" with
     | Val ty =>
         match (if strict_eq_str ty "root-embed"
                then casts_at body "1" else casts_at body "0") with
         | Val c => Fulfilled c
         | TypeErr _ => Rejected unable_to_fetch
         end
     | TypeErr _ => Rejected unable_to_fetch
     end).
Proof.
  intros Hnet. unfold getCast, try_catch, iobind, fetch, await.
  rewrite Hnet. simpl json. cbv beta iota. rewrite lift_settles.
  destruct (ebind _ _) as [ty | msg]; unfold settle; cbv beta iota.
  - destruct (strict_eq_str ty "root-embed"); rewrite lift_settles;
      destruct (casts_at body _); reflexivity.
  - reflexivity.
Qed.

(** FarcasterEmbed as one equation: validation, then getCast, then the
    mapper. *)
Lemma FarcasterEmbed_unfold (url username hash : option string) (log : list request) :
  FarcasterEmbed host net url username hash log
  = match identify url username hash with
    | (Some u, Some h) =>
        if (String.eqb u "" || String.eqb h "")%bool
        then (log, Rejected invalid_input)
        else match getCast net u h log with
             | (log', Fulfilled cast) => (log', settle (render host cast))
             | (log', Rejected e) => (log', Rejected e)
             end
    | _ => (log, Rejected invalid_input)
    end.
Proof.
  unfold FarcasterEmbed.
  destruct (identify url username hash) as [[u |] [h |]]; try reflexivity.
  destruct (String.eqb u "" || String.eqb h "")%bool; [reflexivity |].
  unfold iobind. destruct (getCast net u h log) as [log' [cast | e]];
    [apply lift_settles | reflexivity].
Qed.

Lemma missing_pair (u h : string) :
  (String.eqb u "" || String.eqb h "")%bool = true
  <-> missing (Some u) = true \/ missing (Some h) = true.
Proof. simpl. apply Bool.orb_true_iff. Qed.

(** C3: FarcasterEmbed rejects with the invalid-input error exactly when,
    after a truthy url has been split (segment 3 the handle, segment 4 the
    hash prefix), the handle or the hash is absent or empty; in that case it
    issues no request. *)
Theorem invalid_input_iff (url username hash : option string) (log : list request) :
  (snd (FarcasterEmbed host net url username hash log) = Rejected invalid_input
   <-> missing (fst (identify url username hash)) = true
       \/ missing (snd (identify url username hash)) = true)
  /\ (snd (FarcasterEmbed host net url username hash log) = Rejected invalid_input ->
      fst (FarcasterEmbed host net url username hash log) = log).
Proof.
  rewrite FarcasterEmbed_unfold.
  destruct (identify url username hash) as [[u |] [h |]]; simpl fst; simpl snd;
    try (split; [split; [intros _; simpl; tauto | reflexivity] | reflexivity]).
  destruct (String.eqb u "" || String.eqb h "")%bool eqn:E.
  - split; [split; [intros _; now apply missing_pair | reflexivity] | reflexivity].
  - assert (Hno : ~ (missing (Some u) = true \/ missing (Some h) = true)).
    { intros H. apply missing_pair in H. congruence. }
    destruct (getCast_one_request net u h log) as [r [Hg Hr]]. rewrite Hg.
    assert (Hne : snd (match r with
                       | Fulfilled cast => ((log ++ [endpoint u h])%list, settle (render host cast))
                       | Rejected e => ((log ++ [endpoint u h])%list, Rejected e)
                       end) <> Rejected invalid_input).
    { destruct r as [cast | e]; simpl.
      - destruct (render host cast); simpl; discriminate.
      - rewrite (Hr e eq_refl). discriminate. }
    destruct r as [cast | e]; (split; [split; [intros H; now elim Hne | tauto] |]);
      intros H; now elim Hne.
Qed.

(** C9: a truthy url overrides the caller's username and hash: the outcome
    is that of the url alone, and that of the pair read off the url. *)
Theorem url_takes_precedence (url : string) (username hash : option string)
    (log : list request) :
  url <> "" ->
  FarcasterEmbed host net (Some url) username hash log
  = FarcasterEmbed host net (Some url) None None log
  /\ FarcasterEmbed host net (Some url) username hash log
     = FarcasterEmbed host net None
         (nth_error (split_slash url) 3) (nth_error (split_slash url) 4) log
  /\ identify (Some url) username hash
     = (nth_error (split_slash url) 3, nth_error (split_slash url) 4).
Proof.
  intros Hurl. apply String.eqb_neq in Hurl.
  assert (Hid : forall a b, identify (Some url) a b
                            = (nth_error (split_slash url) 3, nth_error (split_slash url) 4)).
  { intros a b. unfold identify. rewrite Hurl. reflexivity. }
  repeat split.
  - rewrite !FarcasterEmbed_unfold, !Hid. reflexivity.
  - rewrite !FarcasterEmbed_unfold, Hid. reflexivity.
  - apply Hid.
Qed.

(** C8: with a valid handle and hash, an empty [casts] list makes the read
    of the first post's [castType] fail inside getCast, which rejects with
    its generic error; a lone root-embed wrapper makes getCast return
    [undefined], and the read of [cast.author] raises.  Either way
    FarcasterEmbed rejects. *)
Theorem no_selectable_post (url username hash : option string) (u h : string)
    (log : list request) (body : value) (casts : list value) :
  identify url username hash = (Some u, Some h) ->
  u <> "" -> h <> "" ->
  answered net u h log body casts ->
  (casts = [] ->
   FarcasterEmbed host net url username hash log
   = ((log ++ [endpoint u h])%list, Rejected unable_to_fetch))
  /\ (forall w, casts = [w] -> get w "castType" = Val (VStr "root-embed") ->
      getCast net u h log = ((log ++ [endpoint u h])%list, Fulfilled VUndef)
      /\ FarcasterEmbed host net url username hash log
         = ((log ++ [endpoint u h])%list,
            Rejected (JsTypeError "Cannot read properties of undefined (reading 'author')"))).
Proof.
  intros Hid Hu Hh Hans.
  apply String.eqb_neq in Hu, Hh.
  destruct (casts_at_answered net u h log body casts Hans) as [H0 H1].
  pose proof Hans as [Hnet _].
  rewrite FarcasterEmbed_unfold, Hid, Hu, Hh. simpl orb. cbv iota.
  rewrite (getCast_parsed u h log body Hnet), H0, H1.
  split.
  - intros ->. reflexivity.
  - intros w -> Hw. simpl nth. simpl ebind. rewrite Hw. simpl. split; reflexivity.
Qed.

End EntryPoint.

(** ** Array lengths as numbers *)

Lemma digits2_pos_size (p : positive) : digits2_pos p = Pos.size p.
Proof. induction p; simpl; congruence. Qed.

Lemma digits2_pos_bound (p : positive) :
  (Zpos p < 2 ^ 53)%Z -> (Zpos (digits2_pos p) <= 53)%Z.
Proof.
  intros Hp. rewrite digits2_pos_size.
  destruct (Z_le_gt_dec (Zpos (Pos.size p)) 53) as [H | H]; [exact H | exfalso].
  pose proof (Pos.size_le p) as Hs.
  apply Pos2Z.pos_le_pos in Hs. rewrite Pos2Z.inj_pow in Hs.
  assert (H54 : (2 ^ 54 <= 2 ^ Zpos (Pos.size p))%Z)
    by (apply Z.pow_le_mono_r; lia).
  change (Zpos p~0) with (2 * Zpos p)%Z in Hs.
  change (2 ^ 54)%Z with (2 * 2 ^ 53)%Z in H54. lia.
Qed.

Lemma digits2_pos_iter (p k : positive) :
  digits2_pos (Pos.iter xO p k) = (digits2_pos p + k)%positive.
Proof.
  induction k using Pos.peano_ind.
  - simpl. lia.
  - rewrite Pos.iter_succ. simpl. rewrite IHk. lia.
Qed.

(** A mantissa of exactly 53 bits is already rounded. *)
Lemma binary_round_aux_positive (m : positive) (e : Z) :
  digits2_pos m = 53%positive -> (-1074 <= e)%Z ->
  SFltb (S754_zero false) (binary_round_aux prec emax false (Zpos m) e loc_Exact) = true.
Proof.
  intros Hd He.
  assert (Hshr : shr_fexp prec emax (Zpos m) e loc_Exact
                 = ({| shr_m := Zpos m; shr_r := false; shr_s := false |}, e)).
  { unfold shr_fexp, fexp, emin, Zdigits2. rewrite Hd.
    replace (Z.max (53 + e - prec) (3 - emax - prec) - e)%Z with 0%Z
      by (unfold prec, emax; lia).
    reflexivity. }
  unfold binary_round_aux. rewrite Hshr. simpl shr_m. simpl loc_of_shr_record.
  simpl round_nearest_even. rewrite Hshr. simpl shr_m.
  destruct (e <=? emax - prec)%Z; reflexivity.
Qed.

Lemma binary_normalize_positive (p : positive) :
  (Zpos p < 2 ^ 53)%Z ->
  SFltb (S754_zero false) (binary_normalize prec emax (Zpos p) 0 false) = true.
Proof.
  intros Hp. apply digits2_pos_bound in Hp.
  unfold binary_normalize, binary_round, shl_align, fexp, emin.
  replace (Z.max (Zpos (digits2_pos p) + 0 - prec) (3 - emax - prec) - 0)%Z
    with (Zpos (digits2_pos p) - 53)%Z by (unfold prec, emax; lia).
  replace (Z.max (Zpos (digits2_pos p) + 0 - prec) (3 - emax - prec))%Z
    with (Zpos (digits2_pos p) - 53)%Z by (unfold prec, emax; lia).
  destruct (Zpos (digits2_pos p) - 53)%Z as [| k | k] eqn:E.
  - apply binary_round_aux_positive; lia.
  - lia.
  - apply binary_round_aux_positive; [| lia].
    rewrite digits2_pos_iter. lia.
Qed.

(** The length of a non-empty array is a positive number. *)
Lemma float_of_nat_positive (n : nat) :
  (0 < Z.of_nat n < 2 ^ 53)%Z -> PrimFloat.ltb 0 (float_of_nat n) = true.
Proof.
  intros [Hlo Hhi]. unfold float_of_nat.
  rewrite FloatAxioms.ltb_spec, FloatAxioms.of_uint63_spec, Uint63.of_Z_spec.
  rewrite Z.mod_small by (change wB with (2 ^ 63)%Z; lia).
  change (Prim2SF 0) with (S754_zero false).
  destruct (Z.of_nat n) as [| p | p]; try lia.
  now apply binary_normalize_positive.
Qed.

(** ** Media *)

Lemma emap_nth {A B : Type} (f : A -> eval B) (l : list A) (bs : list B) :
  emap f l = Val bs ->
  length bs = length l
  /\ forall n a, nth_error l n = Some a ->
       exists b, f a = Val b /\ nth_error bs n = Some b.
Proof.
  revert bs. induction l as [| a l IH]; simpl; intros bs H.
  - injection H as <-. split; [reflexivity |]. intros [| n] a0 Hn; discriminate Hn.
  - ebind_inv H. ebind_inv H. injection H as <-.
    destruct (IH _ E0) as [Hlen Hnth]. split; [simpl; congruence |].
    intros [| n] a' Hn; simpl in Hn.
    + injection Hn as <-. exists a0. split; [assumption | reflexivity].
    + apply Hnth. exact Hn.
Qed.

Lemma get_array_is_object (e : value) (k : string) (l : list value) :
  get e k = Val (VArr l) -> truthy e = true.
Proof.
  destruct e; unfold get; simpl; intros H; try discriminate H; try reflexivity.
  destruct (String.eqb k "length"); [discriminate H |].
  destruct (array_index k); [| discriminate H].
  destruct (String.get n s); discriminate H.
Qed.

Section Media.

Context (host : Host).

Lemma embeds_of_array (cast e : value) (k : string) (l : list value) :
  get cast "embeds" = Val e -> get e k = Val (VArr l) ->
  embeds_of cast k = Val (VArr l).
Proof.
  intros He Hk. unfold embeds_of. rewrite He. simpl ebind.
  rewrite (and_then_truthy _ _ (get_array_is_object _ _ _ Hk)). exact Hk.
Qed.

Lemma length_gt_zero (l : list value) :
  l <> [] -> (Z.of_nat (length l) < 2 ^ 32)%Z ->
  (n <- get (VArr l) "length" ;; gt_zero host n) = Val (VBool true).
Proof.
  intros Hne Hlen.
  change (n <- get (VArr l) "length" ;; gt_zero host n)
    with (Val (A := value) (VBool (PrimFloat.ltb 0 (float_of_nat (length l))))).
  rewrite float_of_nat_positive; [reflexivity |].
  destruct l; [congruence | simpl length in *; lia].
Qed.

End Media.

Section MediaMapping.

Context (host : Host).

Lemma hasImages_of_array (l : list value) :
  (Z.of_nat (length l) < 2 ^ 32)%Z ->
  hasImages_of host (VArr l) = Val (VBool (negb (Nat.eqb (length l) 0))).
Proof.
  intros Hlen. unfold hasImages_of. rewrite and_then_truthy by reflexivity.
  destruct l as [| a l]; [reflexivity |].
  apply (length_gt_zero host (a :: l)); [discriminate | exact Hlen].
Qed.

Lemma hasVideos_of_array (cast e : value) (l : list value) :
  get cast "embeds" = Val e -> get e "videos" = Val (VArr l) ->
  (Z.of_nat (length l) < 2 ^ 32)%Z ->
  hasVideos_of host cast = Val (VBool (negb (Nat.eqb (length l) 0))).
Proof.
  intros He Hv Hlen. unfold hasVideos_of.
  rewrite (embeds_of_array cast e "videos" l He Hv). simpl ebind.
  rewrite and_then_truthy by reflexivity.
  rewrite He. simpl ebind. rewrite Hv. simpl ebind.
  destruct l as [| a l]; [reflexivity |].
  apply (length_gt_zero host (a :: l)); [discriminate | exact Hlen].
Qed.

(** The children of a media container are the mapped entries, in order. *)
Lemma container_children (shown : bool) (l : list value) (f : value -> eval node)
    (cls : string) (c : node) :
  shown = negb (Nat.eqb (length l) 0) ->
  and_node (VBool shown)
    (kids <- call_map (VArr l) f ;; Val (Element "div" [("className", VStr cls)] kids))
  = Val c ->
  emap f l = Val (children c).
Proof.
  intros -> H. destruct l as [| a l].
  - simpl in H. injection H as <-. reflexivity.
  - unfold and_node in H. simpl truthy in H. cbv iota in H.
    ebind_inv H. injection H as <-. exact E.
Qed.

(** C7: the image embeds of the output are the entries of
    [cast.embeds.images] in order, each with its [url] and [alt] unchanged;
    the video embeds are the entries of [cast.embeds.videos] in order, and the
    aspect ratio of each is [width / height], the binary64 quotient when both
    are numbers.  Each embed is keyed by its entry's [url], as a string. *)
Theorem media_mapping (cast e : value) (tree : node) :
  render host cast = Val tree ->
  get cast "embeds" = Val e ->
  (forall imgs, get e "images" = Val (VArr imgs) ->
     (Z.of_nat (length imgs) < 2 ^ 32)%Z ->
     length (imageEmbeds tree) = length imgs
     /\ forall n image, nth_error imgs n = Some image ->
          exists url alt key,
            get image "url" = Val url /\ get image "alt" = Val alt
            /\ element_key host url = Val key
            /\ (forall s, url = VStr s -> key = VStr s)
            /\ nth_error (imageEmbeds tree) n
               = Some (Element "a"
                         [("key", key); ("href", url); ("target", VStr "_blank");
                          ("className", VStr "farcaster-embed-image-link")]
                         [Element "img"
                            [("src", url); ("alt", alt);
                             ("className", VStr "farcaster-embed-image")]
                            []]))
  /\ (forall vids, get e "videos" = Val (VArr vids) ->
        (Z.of_nat (length vids) < 2 ^ 32)%Z ->
        length (videoEmbeds tree) = length vids
        /\ forall n video, nth_error vids n = Some video ->
             exists url key source width height ratio poster,
               get video "url" = Val url /\ get video "sourceUrl" = Val source
               /\ get video "width" = Val width /\ get video "height" = Val height
               /\ get video "thumbnailUrl" = Val poster
               /\ element_key host url = Val key
               /\ (forall s, url = VStr s -> key = VStr s)
               /\ js_div host width height = Val ratio
               /\ (forall w h, width = VNum w -> height = VNum h ->
                     ratio = VNum (PrimFloat.div w h))
               /\ nth_error (videoEmbeds tree) n
                  = Some (Element "VideoPlayer"
                            [("key", key); ("source", source);
                             ("aspectRatio", ratio); ("poster", poster)]
                            [])).
Proof.
  intros Hr He. unfold render in Hr. ebind_inv Hr.
  apply derive_inv in E.
  destruct E as (_ & _ & _ & _ & _ & _ & Himg & HhasI & HhasV & Hvid).
  apply view_inv in Hr.
  destruct Hr as (meta & linkify & imgsN & vidsN & chan & s1 & s2 & s3 & s4 & icon
                  & -> & HIc & HVc & _).
  change (imageEmbeds _) with (children imgsN).
  change (videoEmbeds _) with (children vidsN).
  split.
  - intros imgs Hi Hlen.
    rewrite (embeds_of_array cast e "images" imgs He Hi) in Himg.
    injection Himg as Himg. rewrite <- Himg in HhasI.
    rewrite (hasImages_of_array imgs Hlen) in HhasI. injection HhasI as HhasI.
    unfold imageContainer in HIc. rewrite <- HhasI, <- Himg in HIc.
    apply container_children in HIc; [| reflexivity].
    apply emap_nth in HIc. destruct HIc as [Hl Hn]. split; [exact Hl |].
    intros n image Hnth. destruct (Hn n image Hnth) as [b [Hb Hnb]].
    unfold imageLink in Hb. do 5 ebind_inv Hb. injection Hb as <-.
    assert (a1 = a0) as -> by congruence.
    assert (a2 = a0) as -> by congruence.
    exists a0, a3, a4. repeat split; try assumption.
    intros s ->. simpl in E3. congruence.
  - intros vids Hv Hlen.
    rewrite (embeds_of_array cast e "videos" vids He Hv) in Hvid.
    injection Hvid as Hvid.
    rewrite (hasVideos_of_array cast e vids He Hv Hlen) in HhasV.
    injection HhasV as HhasV.
    unfold videoContainer in HVc. rewrite <- HhasV, <- Hvid in HVc.
    apply container_children in HVc; [| reflexivity].
    apply emap_nth in HVc. destruct HVc as [Hl Hn]. split; [exact Hl |].
    intros n video Hnth. destruct (Hn n video Hnth) as [b [Hb Hnb]].
    unfold videoPlayer in Hb. do 7 ebind_inv Hb. injection Hb as <-.
    exists a0, a6, a1, a2, a3, a4, a5. repeat split; try assumption.
    + intros s ->. simpl in E5. congruence.
    + intros w h -> ->. unfold js_div in E3. simpl in E3. congruence.
Qed.

End MediaMapping.

(** ** Canonical links *)

Lemma split_slash_plain (s : string) :
  has_slash s = false -> split_slash s = [s].
Proof.
  induction s as [| c r IH]; simpl; [reflexivity |].
  destruct (Ascii.eqb c "/"%char); simpl; [discriminate |].
  intros H. rewrite (IH H). reflexivity.
Qed.

Lemma split_slash_app (a b : string) :
  has_slash a = false ->
  split_slash (a ++ String "/"%char b) = a :: split_slash b.
Proof.
  induction a as [| c r IH]; simpl; [reflexivity |].
  destruct (Ascii.eqb c "/"%char); simpl; [discriminate |].
  intros H. rewrite (IH H). reflexivity.
Qed.

Lemma split_slash_segments (s : string) :
  Forall (fun seg => has_slash seg = false) (split_slash s).
Proof.
  induction s as [| c r IH]; simpl.
  - repeat constructor.
  - destruct (Ascii.eqb c "/"%char) eqn:E.
    + constructor; [reflexivity | exact IH].
    + destruct (split_slash r) as [| h t].
      * repeat constructor. simpl. now rewrite E.
      * inversion IH as [| ? ? Hh Ht]; subst.
        constructor; [simpl; now rewrite E | exact Ht].
Qed.

Lemma identify_segment (url : string) (i : nat) (seg : string) :
  nth_error (split_slash url) i = Some seg -> has_slash seg = false.
Proof.
  intros H. apply nth_error_In in H.
  exact (proj1 (Forall_forall _ _) (split_slash_segments url) seg H).
Qed.

Lemma identify_link (u h : string) :
  has_slash u = false -> has_slash h = false ->
  identify (Some ("https://warpcast.com/" ++ u ++ "/" ++ h)) None None
  = (Some u, Some h).
Proof.
  intros Hu Hh. unfold identify.
  assert (Hs : split_slash ("https://warpcast.com/" ++ u ++ "/" ++ h)
               = ["https:"; ""; "warpcast.com"; u; h]).
  { change ("https://warpcast.com/" ++ u ++ "/" ++ h)
      with ("https:" ++ String "/"%char ("" ++ String "/"%char
              ("warpcast.com" ++ String "/"%char (u ++ String "/"%char h)))).
    rewrite !split_slash_app by (assumption || reflexivity).
    rewrite (split_slash_plain h Hh). reflexivity. }
  rewrite Hs. reflexivity.
Qed.

Lemma ToString_string (host : Host) (s : string) : ToString host (VStr s) = Val s.
Proof. reflexivity. Qed.

Section RoundTrip.

Context (host : Host).
Variable net : network.

(** C6, amended: the derived link carries whatever author and hash the
    provider's post carries.  For a canonical URL with handle [u] and hash
    prefix [h], if the resolved post has [author.username = u] and a
    slash-free string [full] as [hash], the link is
    https://warpcast.com/u/full and parses back to [(u, full)]; it names the
    cast of the URL exactly when [h] is a prefix of [full]. *)
Theorem link_round_trip (url u h full : string) (log log' : list request)
    (cast : value) (v : locals) :
  canonical_url url = true ->
  identify (Some url) None None = (Some u, Some h) ->
  getCast net u h log = (log', Fulfilled cast) ->
  derive host cast = Val v ->
  get (author v) "username" = Val (VStr u) ->
  get cast "hash" = Val (VStr full) ->
  has_slash full = false ->
  warpcastUrl v = "https://warpcast.com/" ++ u ++ "/" ++ full
  /\ identify (Some (warpcastUrl v)) None None = (Some u, Some full)
  /\ same_cast (warpcastUrl v) url = String.prefix h full.
Proof.
  intros Hcan Hid _ Hv Hname Hhash Hfull.
  apply derive_inv in Hv. destruct Hv as (_ & Hlink & _).
  unfold warpcastUrl_of in Hlink. rewrite Hname, Hhash in Hlink.
  simpl ebind in Hlink. injection Hlink as Hlink.
  assert (Hu : has_slash u = false).
  { unfold identify in Hid.
    destruct (negb (String.eqb url "")).
    - injection Hid as H3 _. exact (identify_segment url 3 u H3).
    - discriminate Hid. }
  assert (Hw : warpcastUrl v = "https://warpcast.com/" ++ u ++ "/" ++ full)
    by (symmetry; exact Hlink).
  rewrite Hw. split; [reflexivity |].
  split; [exact (identify_link u full Hu Hfull) |].
  unfold same_cast. rewrite (identify_link u full Hu Hfull), Hid.
  rewrite String.eqb_refl. reflexivity.
Qed.

End RoundTrip.

(** ** Absent counters *)

Section AbsentCounters.

Context (host : Host).
Variable net : network.





End AbsentCounters.

(** * The theorems at concrete inputs *)

Lemma sample_thread_answered :
  answered (serving (thread [sample_wrapper; sample_cast])) "dwr" "0x0de97199" []
    (thread [sample_wrapper; sample_cast]) [sample_wrapper; sample_cast].
Proof. split; [reflexivity | eexists; split; reflexivity]. Qed.

Lemma getCast_selects_witness :
  get sample_wrapper "castType" = Val (VStr "root-embed")
  /\ getCast (serving (thread [sample_wrapper; sample_cast])) "dwr" "0x0de97199" []
     = ([sample_request], Fulfilled sample_cast).
Proof.
  split; [reflexivity |].
  exact (proj1 (getCast_selects (serving (thread [sample_wrapper; sample_cast]))
                  "dwr" "0x0de97199" [] (thread [sample_wrapper; sample_cast])
                  sample_wrapper sample_cast [] (VStr "root-embed")
                  sample_thread_answered eq_refl)).
Defined.

(** The first post is returned when it is not a wrapper. *)
Example getCast_first_post :
  getCast (serving (thread [sample_cast; parent_cast])) "dwr" "0x0de97199" []
  = ([sample_request], Fulfilled sample_cast).
Proof. reflexivity. Qed.

Lemma getCast_wraps_failure_witness :
  getCast offline "dwr" "0x0de97199" [] = ([sample_request], Rejected unable_to_fetch)
  /\ getCast garbled "dwr" "0x0de97199" [] = ([sample_request], Rejected unable_to_fetch)
  /\ getCast flaky "dwr" "0x0de97199" [] = ([sample_request], Rejected unable_to_fetch).
Proof.
  split; [| split].
  - exact (getCast_wraps_failure offline "dwr" "0x0de97199" [] _ (or_introl eq_refl)).
  - exact (getCast_wraps_failure garbled "dwr" "0x0de97199" [] _ (or_intror eq_refl)).
  - exact (getCast_wraps_failure flaky "dwr" "0x0de97199" [] _ (or_introl eq_refl)).
Defined.

Lemma recasts_derivation_witness :
  get cast_0_7 "combinedRecastCount" = Val (VNum 0)
  /\ recasts_of cast_0_7 = Val (VNum 7).
Proof.
  split; [reflexivity |].
  exact (proj1 (recasts_derivation sample_host cast_0_7 (VNum 0) eq_refl)).
Defined.

Example recasts_combined_12 : recasts_of cast_12 = Val (VNum 12).
Proof. exact (proj1 (recasts_derivation sample_host cast_12 (VNum 12) eq_refl)). Qed.

Lemma counts_derivation_witness :
  (exists v, derive sample_host sample_cast = Val v
             /\ replies v = VNum 4 /\ likes v = VNum 1234 /\ watches v = VNum 2)
  /\ (exists v, derive sample_host (drop_prop "watches" sample_cast) = Val v
                /\ watches v = VUndef).
Proof.
  split.
  - destruct (derive sample_host sample_cast) as [v | msg] eqn:E;
      [| vm_compute in E; discriminate E].
    exists v. split; [reflexivity |].
    destruct (counts_derivation sample_host sample_cast v E) as (Hr & Hl & Hw & _).
    specialize (Hr [("count", VNum 4)] eq_refl).
    specialize (Hl [("count", VNum 1234)] eq_refl).
    specialize (Hw [("count", VNum 2)] eq_refl).
    change (Val (VNum 4) = Val (replies v)) in Hr.
    change (Val (VNum 1234) = Val (likes v)) in Hl.
    change (Val (VNum 2) = Val (watches v)) in Hw.
    repeat split; congruence.
  - destruct (derive sample_host (drop_prop "watches" sample_cast)) as [v | msg] eqn:E;
      [| vm_compute in E; discriminate E].
    exists v. split; [reflexivity |].
    destruct (counts_derivation sample_host _ v E) as (_ & _ & _ & _ & _ & Hw).
    exact (Hw eq_refl).
Defined.

Lemma url_takes_precedence_witness :
  sample_url <> ""
  /\ FarcasterEmbed sample_host (serving (thread [sample_wrapper; sample_cast]))
       (Some sample_url) (Some "someone") (Some "0xffff") []
     = FarcasterEmbed sample_host (serving (thread [sample_wrapper; sample_cast]))
         (Some sample_url) None None []
  /\ fst (FarcasterEmbed sample_host (serving (thread [sample_wrapper; sample_cast]))
            (Some sample_url) (Some "someone") (Some "0xffff") [])
     = [sample_request].
Proof.
  assert (Hne : sample_url <> "") by (intros H; discriminate H).
  split; [exact Hne |]. split.
  - exact (proj1 (url_takes_precedence sample_host _ sample_url
                    (Some "someone") (Some "0xffff") [] Hne)).
  - vm_compute. reflexivity.
Defined.

Lemma no_selectable_post_witness :
  FarcasterEmbed sample_host (serving (thread [])) (Some sample_url) None None []
  = ([sample_request], Rejected unable_to_fetch)
  /\ FarcasterEmbed sample_host (serving (thread [sample_wrapper])) None
       (Some "dwr") (Some "0x0de97199") []
     = ([sample_request],
        Rejected (JsTypeError "Cannot read properties of undefined (reading 'author')")).
Proof.
  assert (Hu : "dwr" <> "") by (intros H; discriminate H).
  assert (Hh : "0x0de97199" <> "") by (intros H; discriminate H).
  split.
  - refine (proj1 (no_selectable_post sample_host (serving (thread []))
                     (Some sample_url) None None "dwr" "0x0de97199" []
                     (thread []) [] eq_refl Hu Hh _) eq_refl).
    split; [reflexivity | eexists; split; reflexivity].
  - refine (proj2 (proj2 (no_selectable_post sample_host (serving (thread [sample_wrapper]))
                            None (Some "dwr") (Some "0x0de97199") "dwr" "0x0de97199" []
                            (thread [sample_wrapper]) [sample_wrapper] eq_refl Hu Hh _)
                     sample_wrapper eq_refl eq_refl)).
    split; [reflexivity | eexists; split; reflexivity].
Defined.

Lemma media_mapping_witness :
  exists tree,
    render sample_host sample_cast = Val tree
    /\ nth_error (imageEmbeds tree) 1
       = Some (Element "a"
                 [("key", VStr "https://i.example/b.png");
                  ("href", VStr "https://i.example/b.png");
                  ("target", VStr "_blank");
                  ("className", VStr "farcaster-embed-image-link")]
                 [Element "img"
                    [("src", VStr "https://i.example/b.png"); ("alt", VStr "second");
                     ("className", VStr "farcaster-embed-image")]
                    []])
    /\ nth_error (videoEmbeds tree) 0
       = Some (Element "VideoPlayer"
                 [("key", VStr "https://v.example/a.m3u8");
                  ("source", VStr "https://s.example/a.m3u8");
                  ("aspectRatio", VNum (PrimFloat.div 1920 1080));
                  ("poster", VStr "https://v.example/a.jpg")]
                 []).
Proof.
  destruct (render sample_host sample_cast) as [tree | msg] eqn:E;
    [| vm_compute in E; discriminate E].
  exists tree. split; [reflexivity |].
  destruct (get sample_cast "embeds") as [e | msg] eqn:He;
    [| vm_compute in He; discriminate He].
  destruct (media_mapping sample_host sample_cast e tree E He) as [Himg Hvid].
  injection He as <-.
  split.
  - destruct (Himg _ eq_refl ltac:(vm_compute; reflexivity)) as [_ Hn].
    destruct (Hn 1 _ eq_refl) as (url & alt & key & Hu & Ha & _ & Hk & H).
    injection Hu as <-. injection Ha as <-.
    rewrite (Hk _ eq_refl) in H. exact H.
  - destruct (Hvid _ eq_refl ltac:(vm_compute; reflexivity)) as [_ Hn].
    destruct (Hn 0 _ eq_refl)
      as (url & key & source & width & height & ratio & poster
          & Hu & Hs & Hw & Hh & Hp & _ & Hk & _ & Hratio & H).
    injection Hu as <-. injection Hs as <-. injection Hp as <-.
    injection Hw as Hw. injection Hh as Hh.
    rewrite (Hk _ eq_refl) in H.
    rewrite (Hratio 1920%float 1080%float (eq_sym Hw) (eq_sym Hh)) in H. exact H.
Defined.

(** 1920 / 1080 in binary64. *)
Example aspect_ratio_1920_1080 :
  js_div sample_host (VNum 1920) (VNum 1080) = Val (VNum 0x1.c71c71c71c71cp+0).
Proof. reflexivity. Qed.

(** C6 as stated fails: the URL names dwr's cast, the provider lists the
    parent cast first, and the derived link, which every link of the
    rendered tree carries, names the parent's author and hash.  (Only
    strings are involved: the host plays no part.) *)
Lemma round_trip_counterexample :
  canonical_url sample_url = true
  /\ identify (Some sample_url) None None = (Some "dwr", Some "0x0de97199")
  /\ getCast (serving (thread [parent_cast; sample_cast])) "dwr" "0x0de97199" []
     = ([sample_request], Fulfilled parent_cast)
  /\ (exists v,
        derive sample_host parent_cast = Val v
        /\ warpcastUrl v
           = "https://warpcast.com/vitalik.eth/0x9f2c4b7a11d0e8c35a6f0b2d4c8e1a3f5b7d9e02"
        /\ identify (Some (warpcastUrl v)) None None
           = (Some "vitalik.eth", Some "0x9f2c4b7a11d0e8c35a6f0b2d4c8e1a3f5b7d9e02")
        /\ same_cast (warpcastUrl v) sample_url = false)
  /\ (exists tree,
        FarcasterEmbed sample_host (serving (thread [parent_cast; sample_cast]))
          (Some sample_url) None None []
        = ([sample_request], Fulfilled tree)
        /\ descend [3; 1; 0] tree
           = Some (Element "a"
                     [("href", VStr "https://warpcast.com/vitalik.eth/0x9f2c4b7a11d0e8c35a6f0b2d4c8e1a3f5b7d9e02");
                      ("title", VStr "Show on Warpcast"); ("target", VStr "_blank");
                      ("className", VStr "farcaster-embed-warpcast-link")]
                     [Element "WarpcastIcon" [] []])).
Proof.
  split; [reflexivity |]. split; [reflexivity |]. split; [reflexivity |].
  split.
  - eexists. split; [vm_compute; reflexivity |].
    repeat split; reflexivity.
  - eexists. split; [vm_compute; reflexivity |]. reflexivity.
Qed.

Lemma link_round_trip_witness :
  canonical_url sample_url = true
  /\ exists v,
       derive sample_host sample_cast = Val v
       /\ warpcastUrl v
          = "https://warpcast.com/dwr/0x0de97199e1c4d0a5f3b0a3f2e6d3c1b2a4958677"
       /\ same_cast (warpcastUrl v) sample_url = true.
Proof.
  split; [reflexivity |].
  destruct (derive sample_host sample_cast) as [v | msg] eqn:E;
    [| vm_compute in E; discriminate E].
  exists v. split; [reflexivity |].
  assert (Hauthor : get (author v) "username" = Val (VStr "dwr")).
  { apply derive_inv in E. destruct E as (Ha & _).
    injection Ha as Ha. rewrite <- Ha. reflexivity. }
  destruct (link_round_trip sample_host
              (serving (thread [sample_wrapper; sample_cast]))
              sample_url "dwr" "0x0de97199"
              "0x0de97199e1c4d0a5f3b0a3f2e6d3c1b2a4958677"
              [] [sample_request] sample_cast v
              eq_refl eq_refl eq_refl E Hauthor eq_refl eq_refl)
    as (Hlink & _ & Hsame).
  split; [exact Hlink | exact Hsame].
Defined.



(** Supplying both forms is accepted: no invalid-input error is raised. *)
Example both_forms_accepted :
  exists tree,
    FarcasterEmbed sample_host (serving (thread [sample_wrapper; sample_cast]))
      (Some sample_url) (Some "dwr") (Some "0x0de97199") []
    = ([sample_request], Fulfilled tree).
Proof. eexists. vm_compute. reflexivity. Qed.

(** A url that does not split into five segments is rejected even when a
    complete pair comes with it. *)
Example short_url_rejected :
  FarcasterEmbed sample_host (serving (thread [sample_cast]))
    (Some "warpcast.com/dwr/0x0de97199") (Some "dwr") (Some "0x0de97199") []
  = ([], Rejected invalid_input).
Proof. reflexivity. Qed.

(** The count an absent counter would show raises when it is formatted. *)
Example absent_replies_formatting :
  exists v, derive sample_host (drop_prop "replies" sample_cast) = Val v
            /\ replies v = VUndef
            /\ stat sample_host (warpcastUrl v) "ReplyIcon" (replies v)
               = TypeErr "Cannot read properties of undefined (reading 'toLocaleString')".
Proof. eexists. split; [vm_compute; reflexivity |]. split; reflexivity. Qed.

(** * Further properties *)

Lemma get_Val_not_nullish (v w : value) (k : string) :
  get v k = Val w -> nullish v = false.
Proof. destruct v; simpl; intros H; (discriminate H || reflexivity). Qed.

Lemma split_slash_glue (a b : string) :
  has_slash a = false ->
  split_slash (a ++ "/" ++ b) = a :: split_slash b.
Proof. intros Ha. exact (split_slash_app a b Ha). Qed.

(** ** Outcomes of getCast and FarcasterEmbed *)

Section Outcomes.

Context (host : Host).
Variable net : network.

(** X1: whatever the network answers, getCast issues exactly one request; it
    rejects only with its generic error, also when the parsed body has not
    the expected shape; and it fulfils only with the first or second entry
    of a parsed body whose first entry's [castType] could be read. *)
Theorem getCast_outcome (u h : string) (log : list request) :
  fst (getCast net u h log) = (log ++ [endpoint u h])%list
  /\ (forall e, snd (getCast net u h log) = Rejected e -> e = unable_to_fetch)
  /\ (forall c, snd (getCast net u h log) = Fulfilled c ->
        exists body ty,
          net log (endpoint u h) = Fulfilled {| json := Fulfilled body |}
          /\ (c0 <- casts_at body "0" ;; get c0 "castType") = Val ty
          /\ casts_at body (if strict_eq_str ty "root-embed" then "1" else "0")
             = Val c).
Proof.
  destruct (getCast_one_request net u h log) as [r [Hg Hr]].
  rewrite Hg. simpl fst. simpl snd.
  split; [reflexivity |]. split; [exact Hr |].
  intros c ->.
  destruct (net log (endpoint u h)) as [[[body | e]] | e] eqn:Hnet.
  - rewrite (getCast_parsed net u h log body Hnet) in Hg.
    injection Hg as Hg.
    destruct (c0 <- casts_at body "0" ;; get c0 "castType") as [ty | msg] eqn:Ety;
      [| discriminate Hg].
    exists body, ty. split; [reflexivity |]. split; [exact Ety |].
    destruct (strict_eq_str ty "root-embed").
    + destruct (casts_at body "1") as [c' | msg]; [| discriminate Hg].
      injection Hg as ->. reflexivity.
    + destruct (casts_at body "0") as [c' | msg]; [| discriminate Hg].
      injection Hg as ->. reflexivity.
  - rewrite (getCast_wraps_failure_any net u h log e (or_intror Hnet)) in Hg.
    discriminate Hg.
  - rewrite (getCast_wraps_failure_any net u h log e (or_introl Hnet)) in Hg.
    discriminate Hg.
Qed.


End Outcomes.

(** ** The input forms and the thread *)

Lemma strict_eq_str_other (ty : value) (s : string) :
  ty <> VStr s -> strict_eq_str ty s = false.
Proof.
  intros H. destruct ty; simpl; try reflexivity.
  apply String.eqb_neq. intros ->. now apply H.
Qed.

Lemma identify_segments (a b c u h : string) (username hash : option string) :
  has_slash a = false -> has_slash b = false -> has_slash c = false ->
  has_slash u = false -> has_slash h = false ->
  identify (Some (a ++ "/" ++ b ++ "/" ++ c ++ "/" ++ u ++ "/" ++ h)) username hash
  = (Some u, Some h)
  /\ forall tail,
       identify (Some (a ++ "/" ++ b ++ "/" ++ c ++ "/" ++ u ++ "/" ++ h ++ "/" ++ tail))
         username hash
       = (Some u, Some h).
Proof.
  intros Ha Hb Hc Hu Hh.
  assert (Hne : forall x, String.eqb (a ++ "/" ++ x) "" = false).
  { intros x. destruct a; reflexivity. }
  split; [| intros tail]; unfold identify; rewrite Hne; simpl negb; cbv iota;
    rewrite !split_slash_glue by assumption.
  - rewrite (split_slash_plain h Hh). reflexivity.
  - reflexivity.
Qed.

Section InputForms.

Context (host : Host).

(** X3: a url is read by position only.  Whatever its first three segments
    (scheme and site are never checked), and whatever follows its fifth, it
    behaves as the pair made of its fourth and fifth segments, and the
    username and hash supplied beside it are ignored. *)
Theorem url_read_by_position (net : network) (a b c u h : string)
    (username hash : option string) (log : list request) :
  has_slash a = false -> has_slash b = false -> has_slash c = false ->
  has_slash u = false -> has_slash h = false ->
  FarcasterEmbed host net
    (Some (a ++ "/" ++ b ++ "/" ++ c ++ "/" ++ u ++ "/" ++ h)) username hash log
  = FarcasterEmbed host net None (Some u) (Some h) log
  /\ forall tail,
       FarcasterEmbed host net
         (Some (a ++ "/" ++ b ++ "/" ++ c ++ "/" ++ u ++ "/" ++ h ++ "/" ++ tail))
         username hash log
       = FarcasterEmbed host net None (Some u) (Some h) log.
Proof.
  intros Ha Hb Hc Hu Hh.
  destruct (identify_segments a b c u h username hash Ha Hb Hc Hu Hh) as [H1 H2].
  split; [| intros tail]; rewrite !FarcasterEmbed_unfold.
  - rewrite H1. reflexivity.
  - rewrite (H2 tail). reflexivity.
Qed.

(** X4: the root-embed wrapper is transparent, and the rest of the thread is
    never looked at: a thread that starts with a wrapper followed by a cast
    gives the same outcome as a thread that starts with that cast. *)
Theorem wrapper_is_transparent (net1 net2 : network) (url username hash : option string)
    (u h : string) (log : list request) (body1 body2 w c ty : value)
    (rest1 rest2 : list value) :
  identify url username hash = (Some u, Some h) ->
  answered net1 u h log body1 (w :: c :: rest1) ->
  answered net2 u h log body2 (c :: rest2) ->
  get w "castType" = Val (VStr "root-embed") ->
  get c "castType" = Val ty -> ty <> VStr "root-embed" ->
  FarcasterEmbed host net1 url username hash log
  = FarcasterEmbed host net2 url username hash log.
Proof.
  intros Hid H1 H2 Hw Hc Hty.
  rewrite !FarcasterEmbed_unfold, Hid.
  destruct (String.eqb u "" || String.eqb h "")%bool; [reflexivity |].
  rewrite (getCast_answered net1 u h log body1 (w :: c :: rest1) _ H1 Hw).
  rewrite (getCast_answered net2 u h log body2 (c :: rest2) ty H2 Hc).
  rewrite (strict_eq_str_other ty "root-embed" Hty). reflexivity.
Qed.

End InputForms.

Lemma url_read_by_position_witness :
  FarcasterEmbed sample_host (serving (thread [sample_wrapper; sample_cast]))
    (Some "http://example.org/dwr/0x0de97199/extra?x=1") (Some "bob") None []
  = FarcasterEmbed sample_host (serving (thread [sample_wrapper; sample_cast]))
      None (Some "dwr") (Some "0x0de97199") [].
Proof.
  exact (proj2 (url_read_by_position sample_host
                  (serving (thread [sample_wrapper; sample_cast]))
                  "http:" "" "example.org" "dwr" "0x0de97199" (Some "bob") None []
                  eq_refl eq_refl eq_refl eq_refl eq_refl) "extra?x=1").
Defined.

Lemma wrapper_is_transparent_witness :
  FarcasterEmbed sample_host (serving (thread [sample_wrapper; sample_cast; parent_cast]))
    (Some sample_url) None None []
  = FarcasterEmbed sample_host (serving (thread [sample_cast]))
      (Some sample_url) None None [].
Proof.
  refine (wrapper_is_transparent sample_host
            (serving (thread [sample_wrapper; sample_cast; parent_cast]))
            (serving (thread [sample_cast]))
            (Some sample_url) None None "dwr" "0x0de97199" []
            (thread [sample_wrapper; sample_cast; parent_cast]) (thread [sample_cast])
            sample_wrapper sample_cast (VStr "cast") [parent_cast] []
            eq_refl _ _ eq_refl eq_refl _).
  - split; [reflexivity | eexists; split; reflexivity].
  - split; [reflexivity | eexists; split; reflexivity].
  - intros H. discriminate H.
Defined.

(** ** What rendering needs, and what suffices *)

Lemma get_field (v : value) (k : string) :
  nullish v = false -> get v k = Val (field v k).
Proof.
  intros H. unfold field. destruct (get v k) as [w | msg] eqn:E; [reflexivity |].
  destruct v; simpl in H; try discriminate H; unfold get in E;
    repeat match type of E with
           | context [if ?b then _ else _] => destruct b
           | context [match ?x with _ => _ end] => destruct x
           end; discriminate E.
Qed.

Lemma is_object_not_nullish (v : value) : is_object v = true -> nullish v = false.
Proof. destruct v; simpl; intros H; (discriminate H || reflexivity). Qed.

Lemma is_object_truthy (v : value) : is_object v = true -> truthy v = true.
Proof. destruct v; simpl; intros H; (discriminate H || reflexivity). Qed.

Lemma is_number_inv (v : value) : is_number v = true -> exists x, v = VNum x.
Proof. destruct v; simpl; intros H; try discriminate H. eexists. reflexivity. Qed.

Section Shape.

Context (host : Host).

Lemma toLocaleString_not_nullish (v : value) (s : string) :
  toLocaleString host v = Val s -> nullish v = false.
Proof. destruct v; simpl; intros H; (discriminate H || reflexivity). Qed.

Lemma ToString_primitive (v : value) :
  primitive v = true -> exists s, ToString host v = Val s.
Proof.
  destruct v as [| | [|] | x | s | l | o]; simpl; intros H; try discriminate H;
    eexists; reflexivity.
Qed.

Lemma ToNumber_primitive (v : value) :
  primitive v = true -> exists x, ToNumber host v = Val x.
Proof.
  destruct v as [| | [|] | x | s | l | o]; simpl; intros H; try discriminate H;
    eexists; reflexivity.
Qed.

Lemma formatTimestamp_primitive (v : value) :
  primitive v = true -> exists s, formatTimestamp host v = Val s.
Proof.
  destruct v as [| | [|] | x | s | l | o]; simpl; intros H; try discriminate H;
    eexists; reflexivity.
Qed.

Lemma count_of_counter (cast : value) (k : string) :
  is_object cast = true -> counter_ok (field cast k) = true ->
  exists x, count_of cast k = Val (VNum x).
Proof.
  intros Hc Hk. apply andb_prop in Hk. destruct Hk as [Ho Hn].
  apply is_number_inv in Hn. destruct Hn as [x Hx]. exists x.
  unfold count_of. rewrite (get_field cast k (is_object_not_nullish _ Hc)).
  simpl ebind. rewrite (and_then_truthy _ _ (is_object_truthy _ Ho)).
  rewrite (get_field _ "count" (is_object_not_nullish _ Ho)). now rewrite Hx.
Qed.

Lemma recasts_of_counter (cast : value) :
  is_object cast = true -> recasts_ok cast = true ->
  exists x, recasts_of cast = Val (VNum x).
Proof.
  intros Hc Hk. unfold recasts_ok in Hk. unfold recasts_of.
  rewrite (get_field cast _ (is_object_not_nullish _ Hc)). simpl ebind.
  destruct (truthy (field cast "combinedRecastCount")).
  - apply is_number_inv in Hk. destruct Hk as [x Hx]. exists x. now rewrite Hx.
  - apply andb_prop in Hk. destruct Hk as [Ho Hn].
    apply is_number_inv in Hn. destruct Hn as [x Hx]. exists x.
    rewrite (get_field cast _ (is_object_not_nullish _ Hc)). simpl ebind.
    rewrite (get_field _ "count" (is_object_not_nullish _ Ho)). now rewrite Hx.
Qed.

Lemma emap_total {A B : Type} (f : A -> eval B) (ok : A -> bool) (l : list A) :
  (forall a, ok a = true -> exists b, f a = Val b) ->
  forallb ok l = true -> exists bs, emap f l = Val bs.
Proof.
  intros Hf. induction l as [| a l IH]; simpl; intros H.
  - eexists. reflexivity.
  - apply andb_prop in H. destruct H as [Ha Hl].
    destruct (Hf a Ha) as [b Hb]. destruct (IH Hl) as [bs Hbs].
    rewrite Hb. simpl. rewrite Hbs. simpl. eexists. reflexivity.
Qed.

Lemma element_key_primitive (v : value) :
  primitive v = true -> exists k, element_key host v = Val k.
Proof.
  intros H. destruct (ToString_primitive v H) as [s Hs].
  unfold element_key. destruct v; try (eexists; reflexivity);
    rewrite Hs; eexists; reflexivity.
Qed.

Lemma imageLink_total (image : value) :
  image_ok image = true -> exists n, imageLink host image = Val n.
Proof.
  intros H. apply andb_prop in H. destruct H as [H Hu].
  apply negb_true_iff in H.
  destruct (element_key_primitive _ Hu) as [k Hk].
  unfold imageLink. rewrite !(get_field image _ H). cbn [ebind].
  rewrite Hk. cbn [ebind]. eexists. reflexivity.
Qed.

Lemma videoPlayer_total (video : value) :
  video_ok video = true -> exists n, videoPlayer host video = Val n.
Proof.
  intros H. apply andb_prop in H. destruct H as [H Hh].
  apply andb_prop in H. destruct H as [H Hw].
  apply andb_prop in H. destruct H as [H Hu]. apply negb_true_iff in H.
  destruct (ToNumber_primitive _ Hw) as [x Hx].
  destruct (ToNumber_primitive _ Hh) as [y Hy].
  destruct (element_key_primitive _ Hu) as [k Hk].
  unfold videoPlayer, js_div. rewrite !(get_field video _ H). cbn [ebind].
  rewrite Hx. cbn [ebind]. rewrite Hy. cbn [ebind]. rewrite Hk. cbn [ebind].
  eexists. reflexivity.
Qed.

(** A media container is built whenever the list is absent or well-formed
    and the flag was computed from it. *)
Lemma container_total (entry_ok : value -> bool) (f : value -> eval node)
    (m flag : value) (cls : string) :
  (forall a, entry_ok a = true -> exists b, f a = Val b) ->
  media_ok entry_ok m = true ->
  (truthy m = false -> truthy flag = false) ->
  exists n,
    and_node flag
      (kids <- call_map m f ;; Val (Element "div" [("className", VStr cls)] kids))
    = Val n.
Proof.
  intros Hf Hm Hflag. unfold and_node.
  destruct (truthy flag) eqn:Ef; [| eexists; reflexivity].
  destruct m as [| | | | | l |]; simpl in Hm; try discriminate Hm;
    try discriminate (Hflag eq_refl).
  destruct (emap_total f entry_ok l Hf Hm) as [bs Hbs].
  simpl call_map. rewrite Hbs. simpl. eexists. reflexivity.
Qed.

Lemma gt_zero_number (x : float) :
  gt_zero host (VNum x) = Val (VBool (PrimFloat.ltb 0 x)).
Proof. reflexivity. Qed.

Lemma length_is_number (l : list value) :
  get (VArr l) "length" = Val (VNum (float_of_nat (length l))).
Proof. reflexivity. Qed.

End Shape.

Section Rendering.

Context (host : Host).

Lemma field_of_get (v w : value) (k : string) : get v k = Val w -> field v k = w.
Proof. intros H. unfold field. now rewrite H. Qed.

Lemma derive_reads (cast : value) (v : locals) :
  derive host cast = Val v ->
  get cast "author" = Val (author v) /\ nullish (author v) = false.
Proof.
  unfold derive. intros H. ebind_inv H. ebind_inv H.
  unfold profileUrl_of in E0. ebind_inv E0.
  do 10 ebind_inv H. injection H as <-. simpl.
  split; [exact E | exact (get_Val_not_nullish _ _ _ E1)].
Qed.

Lemma view_reads (cast : value) (v : locals) (tree : node) :
  view host cast v = Val tree ->
  nullish (field (author v) "pfp") = false /\ nullish (field cast "tags") = false.
Proof.
  unfold view. intros H. do 10 ebind_inv H.
  unfold channel in E8. do 2 ebind_inv E8.
  rewrite (field_of_get _ _ _ E), (field_of_get _ _ _ E9).
  split; eapply get_Val_not_nullish; eassumption.
Qed.

(** X5: what a rendered cast must have.  If rendering returns a tree, then
    [cast.author], [cast.author.pfp] and [cast.tags] are neither undefined
    nor null, and none of the four counts the statistics list formats is
    undefined or null: a counter present without [count], or null, is as
    fatal as an absent one. *)
Theorem render_requires (cast : value) (tree : node) :
  render host cast = Val tree ->
  nullish (field cast "author") = false
  /\ nullish (field (field cast "author") "pfp") = false
  /\ nullish (field cast "tags") = false
  /\ exists r l rc w,
       count_of cast "replies" = Val r /\ nullish r = false
       /\ count_of cast "reactions" = Val l /\ nullish l = false
       /\ recasts_of cast = Val rc /\ nullish rc = false
       /\ count_of cast "watches" = Val w /\ nullish w = false.
Proof.
  unfold render. intros H. ebind_inv H.
  destruct (derive_reads cast a E) as [Ha Hna].
  destruct (view_reads cast a tree H) as [Hpfp Htags].
  apply derive_inv in E. destruct E as (_ & _ & Hr & Hl & Hrc & Hw & _).
  apply view_inv in H.
  destruct H as (meta & linkify & imgs & vids & chan & s1 & s2 & s3 & s4 & icon
                 & _ & _ & _ & H1 & H2 & H3 & H4).
  apply stat_inv in H1, H2, H3, H4.
  destruct H1 as [t1 H1], H2 as [t2 H2], H3 as [t3 H3], H4 as [t4 H4].
  rewrite (field_of_get _ _ _ Ha).
  split; [exact Hna |]. split; [exact Hpfp |]. split; [exact Htags |].
  exists (replies a), (likes a), (recasts a), (watches a).
  repeat split; try assumption; eapply toLocaleString_not_nullish; eassumption.
Qed.

Lemma embeds_of_media (cast : value) :
  is_object cast = true -> embeds_ok (field cast "embeds") = true ->
  exists im vd,
    embeds_of cast "images" = Val im /\ embeds_of cast "videos" = Val vd
    /\ media_ok image_ok im = true /\ media_ok video_ok vd = true.
Proof.
  intros Hc He. apply is_object_not_nullish in Hc.
  unfold embeds_of. rewrite (get_field cast "embeds" Hc). simpl ebind.
  destruct (field cast "embeds") as [| | b | x | s | l | o] eqn:E;
    simpl in He; try discriminate He.
  - exists VUndef, VUndef. repeat split; reflexivity.
  - exists VNull, VNull. repeat split; reflexivity.
  - apply andb_prop in He. destruct He as [Hi Hv].
    rewrite !and_then_truthy by reflexivity.
    rewrite !(get_field (VObj o) _ eq_refl).
    exists (field (VObj o) "images"), (field (VObj o) "videos").
    repeat split; assumption.
Qed.

Lemma hasImages_of_media (ok : value -> bool) (m : value) :
  media_ok ok m = true ->
  exists flag, hasImages_of host m = Val flag
               /\ (truthy m = false -> truthy flag = false).
Proof.
  unfold hasImages_of.
  destruct m as [| | b | x | s | l | o]; simpl; intros H; try discriminate H.
  - exists VUndef. split; reflexivity.
  - exists VNull. split; reflexivity.
  - rewrite and_then_truthy by reflexivity.
    eexists. split; [reflexivity | intros F; discriminate F].
Qed.

Lemma hasVideos_of_media (ok : value -> bool) (cast vd : value) :
  embeds_of cast "videos" = Val vd -> media_ok ok vd = true ->
  exists flag, hasVideos_of host cast = Val flag
               /\ (truthy vd = false -> truthy flag = false).
Proof.
  intros Hvd Hok. unfold hasVideos_of. rewrite Hvd. simpl ebind.
  destruct vd as [| | b | x | s | l | o]; simpl in Hok; try discriminate Hok.
  - exists VUndef. split; reflexivity.
  - exists VNull. split; reflexivity.
  - rewrite and_then_truthy by reflexivity.
    unfold embeds_of in Hvd. ebind_inv Hvd. rewrite E. simpl ebind.
    unfold and_then in Hvd. destruct (truthy a) eqn:Ta.
    + rewrite E in Hvd. simpl ebind in Hvd. rewrite Hvd. simpl ebind.
      eexists. split; [reflexivity | intros F; discriminate F].
    + injection Hvd as ->. discriminate Ta.
Qed.

Lemma channel_total (cast : value) :
  is_object cast = true -> tags_ok (field cast "tags") = true ->
  exists n, channel host cast = Val n.
Proof.
  intros Hc Ht. apply is_object_not_nullish in Hc.
  unfold channel. rewrite !(get_field cast "tags" Hc). simpl ebind.
  destruct (field cast "tags") as [| | b | x | s | [| t l] | o];
    simpl in Ht; try discriminate Ht.
  - eexists. reflexivity.
  - apply negb_true_iff in Ht.
    rewrite length_is_number. simpl ebind.
    unfold and_node at 1.
    destruct (truthy (VBool (PrimFloat.ltb 0 (float_of_nat (S (length l))))));
      [| eexists; reflexivity].
    rewrite !(get_field t _ Ht). simpl ebind.
    unfold and_node.
    destruct (truthy (field t "imageUrl")); destruct (truthy (field t "name"));
      simpl; eexists; reflexivity.
Qed.

End Rendering.

Section WellShaped.

Context (host : Host).

Lemma profileUrl_of_total (a : value) :
  nullish a = false -> primitive (field a "fid") = true ->
  exists s, profileUrl_of host a = Val s.
Proof.
  intros Ha Hf. destruct (ToString_primitive host _ Hf) as [s Hs].
  unfold profileUrl_of. rewrite (get_field a "fid" Ha). cbn [ebind].
  rewrite Hs. cbn [ebind]. eexists. reflexivity.
Qed.

Lemma timestamp_of_total (cast : value) :
  nullish cast = false -> primitive (field cast "timestamp") = true ->
  exists s, timestamp_of host cast = Val s.
Proof.
  intros Hc Ht. destruct (formatTimestamp_primitive host _ Ht) as [s Hs].
  unfold timestamp_of. rewrite (get_field cast "timestamp" Hc). cbn [ebind].
  rewrite Hs. eexists. reflexivity.
Qed.

Lemma warpcastUrl_of_total (cast a : value) :
  nullish cast = false -> nullish a = false ->
  primitive (field a "username") = true -> primitive (field cast "hash") = true ->
  exists s, warpcastUrl_of host cast a = Val s.
Proof.
  intros Hc Ha Hu Hh.
  destruct (ToString_primitive host _ Hu) as [us Hus].
  destruct (ToString_primitive host _ Hh) as [hs Hhs].
  unfold warpcastUrl_of. rewrite (get_field a "username" Ha). cbn [ebind].
  rewrite Hus. cbn [ebind]. rewrite (get_field cast "hash" Hc). cbn [ebind].
  rewrite Hhs. cbn [ebind]. eexists. reflexivity.
Qed.

Lemma stat_number (href icon : string) (x : float) :
  exists li, stat host href icon (VNum x) = Val li.
Proof. eexists. reflexivity. Qed.

Lemma well_shaped_derives (cast : value) :
  well_shaped cast = true ->
  exists v,
    derive host cast = Val v
    /\ author v = field cast "author"
    /\ (exists x, replies v = VNum x) /\ (exists x, likes v = VNum x)
    /\ (exists x, recasts v = VNum x) /\ (exists x, watches v = VNum x)
    /\ media_ok image_ok (images v) = true /\ media_ok video_ok (videos v) = true
    /\ (truthy (images v) = false -> truthy (hasImages v) = false)
    /\ (truthy (videos v) = false -> truthy (hasVideos v) = false).
Proof.
  unfold well_shaped. intros H.
  repeat (apply andb_prop in H; let H' := fresh "S" in destruct H as [H H']).
  rename H into Hobj.
  pose proof (is_object_not_nullish _ Hobj) as Hc.
  unfold author_ok in S7.
  repeat (apply andb_prop in S7; let H' := fresh "A" in destruct S7 as [S7 H']).
  pose proof (is_object_not_nullish _ S7) as Ha.
  destruct (profileUrl_of_total _ Ha A1) as [pu Hpu].
  destruct (timestamp_of_total _ Hc S5) as [ts Hts].
  destruct (warpcastUrl_of_total _ _ Hc Ha A0 S6) as [wu Hwu].
  destruct (count_of_counter cast "replies" Hobj S4) as [r Hr].
  destruct (count_of_counter cast "reactions" Hobj S3) as [l Hl].
  destruct (recasts_of_counter cast Hobj S2) as [rc Hrc].
  destruct (count_of_counter cast "watches" Hobj S1) as [w Hw].
  destruct (embeds_of_media cast Hobj S0) as (im & vd & Him & Hvd & Hiok & Hvok).
  destruct (hasImages_of_media host image_ok im Hiok) as (hi & Hhi & Hhif).
  destruct (hasVideos_of_media host video_ok cast vd Hvd Hvok) as (hv & Hhv & Hhvf).
  unfold derive. rewrite (get_field cast "author" Hc). cbn [ebind].
  rewrite Hpu. cbn [ebind]. rewrite Hts. cbn [ebind]. rewrite Hwu. cbn [ebind].
  rewrite Hr. cbn [ebind]. rewrite Hl. cbn [ebind]. rewrite Hrc. cbn [ebind].
  rewrite Hw. cbn [ebind]. rewrite Him. cbn [ebind]. rewrite Hhi. cbn [ebind].
  rewrite Hhv. cbn [ebind]. rewrite Hvd. cbn [ebind].
  eexists. split; [reflexivity |]. simpl.
  repeat split; eauto.
Qed.

(** X6: a cast of the shape the source's types describe always renders.
    [well_shaped] asks for an author object with primitive [fid] and
    [username] and a [pfp], primitive [hash] and [timestamp], numeric
    counters, optional media lists of entries that are not null and have a
    primitive [url] (videos also primitive [width] and [height]), and a
    [tags] array; for such a cast the mapper returns a tree, and
    FarcasterEmbed fulfils with it once getCast has resolved. *)
Theorem well_shaped_renders (cast : value) :
  well_shaped cast = true ->
  exists tree,
    render host cast = Val tree
    /\ forall net url username hash u h log log',
         identify url username hash = (Some u, Some h) ->
         u <> "" -> h <> "" ->
         getCast net u h log = (log', Fulfilled cast) ->
         FarcasterEmbed host net url username hash log = (log', Fulfilled tree).
Proof.
  intros Hshape.
  destruct (well_shaped_derives cast Hshape)
    as (v & Hv & Hauthor & [r Hr] & [l Hl] & [rc Hrc] & [w Hw]
        & Hiok & Hvok & Hhif & Hhvf).
  assert (Hrender : exists tree, render host cast = Val tree).
  { unfold well_shaped in Hshape.
    repeat (apply andb_prop in Hshape;
            let H' := fresh "S" in destruct Hshape as [Hshape H']).
    pose proof (is_object_not_nullish _ Hshape) as Hc.
    unfold author_ok in S7.
    repeat (apply andb_prop in S7; let H' := fresh "A" in destruct S7 as [S7 H']).
    pose proof (is_object_not_nullish _ S7) as Ha.
    apply negb_true_iff in A.
    destruct (ToString_primitive host _ A0) as [us Hus].
    destruct (container_total image_ok (imageLink host) (images v) (hasImages v)
                "farcaster-embed-image-container" (imageLink_total host) Hiok Hhif)
      as [imgs Himgs].
    destruct (container_total video_ok (videoPlayer host) (videos v) (hasVideos v)
                "farcaster-embed-video-container" (videoPlayer_total host) Hvok Hhvf)
      as [vids Hvids].
    destruct (channel_total host cast Hshape S) as [chan Hchan].
    unfold render. rewrite Hv. cbn [ebind]. unfold view.
    rewrite Hauthor, (get_field _ "pfp" Ha). cbn [ebind].
    rewrite (get_field _ "url" A). cbn [ebind].
    rewrite !(get_field _ "username" Ha). cbn [ebind]. rewrite Hus. cbn [ebind].
    rewrite (get_field _ "displayName" Ha). cbn [ebind].
    rewrite (get_field cast "text" Hc). cbn [ebind].
    unfold imageContainer, videoContainer.
    rewrite Himgs. cbn [ebind]. rewrite Hvids. cbn [ebind].
    rewrite Hchan. cbn [ebind]. rewrite Hr, Hrc, Hl, Hw.
    eexists. reflexivity. }
  destruct Hrender as [tree Htree]. exists tree. split; [exact Htree |].
  intros net url username hash u h log log' Hid Hu Hh Hg.
  apply String.eqb_neq in Hu, Hh.
  rewrite FarcasterEmbed_unfold, Hid, Hu, Hh, Hg, Htree. reflexivity.
Qed.

End WellShaped.

Lemma render_requires_witness :
  nullish (field sample_cast "author") = false
  /\ nullish (field (field sample_cast "author") "pfp") = false
  /\ nullish (field sample_cast "tags") = false
  /\ exists r l rc w,
       count_of sample_cast "replies" = Val r /\ nullish r = false
       /\ count_of sample_cast "reactions" = Val l /\ nullish l = false
       /\ recasts_of sample_cast = Val rc /\ nullish rc = false
       /\ count_of sample_cast "watches" = Val w /\ nullish w = false.
Proof.
  destruct (render sample_host sample_cast) as [tree | msg] eqn:E;
    [| vm_compute in E; discriminate E].
  exact (render_requires sample_host sample_cast tree E).
Defined.

(** A counter that is present but has no [count] is fatal too. *)
Example counter_without_count :
  exists msg,
    render sample_host (set_prop "replies" (VObj []) sample_cast) = TypeErr msg.
Proof. eexists. vm_compute. reflexivity. Qed.

Lemma well_shaped_renders_witness :
  well_shaped sample_cast = true
  /\ well_shaped parent_cast = true
  /\ exists tree,
       FarcasterEmbed sample_host (serving (thread [sample_wrapper; sample_cast]))
         (Some sample_url) None None []
       = ([sample_request], Fulfilled tree).
Proof.
  split; [reflexivity |]. split; [reflexivity |].
  destruct (well_shaped_renders sample_host sample_cast eq_refl) as [tree [_ H]].
  exists tree.
  exact (H (serving (thread [sample_wrapper; sample_cast])) (Some sample_url) None None
           "dwr" "0x0de97199" [] [sample_request] eq_refl
           ltac:(discriminate) ltac:(discriminate) eq_refl).
Defined.

(** ** What the tree shows *)

Section Shown.

Context (host : Host).

(** X7: the statistics list has four entries, in the order replies, recasts,
    likes, watches; for numeric counts each shows the count formatted by the
    host's en-US [toLocaleString], and each links to the canonical post URL,
    as does the Warpcast icon; the avatar links to the profile URL. *)
Theorem statistics_shown (cast : value) (tree : node) (v : locals) (r rc l w : float) :
  render host cast = Val tree ->
  derive host cast = Val v ->
  replies v = VNum r -> recasts v = VNum rc -> likes v = VNum l -> watches v = VNum w ->
  descend [3; 0] tree
  = Some (Element "ul" []
            [stat_item (warpcastUrl v) "ReplyIcon" (NumberToLocaleString host r);
             stat_item (warpcastUrl v) "RecastIcon" (NumberToLocaleString host rc);
             stat_item (warpcastUrl v) "LikeIcon" (NumberToLocaleString host l);
             stat_item (warpcastUrl v) "WatchIcon" (NumberToLocaleString host w)])
  /\ (exists icon, descend [3; 1; 0] tree = Some icon
                   /\ prop icon "href" = Some (VStr (warpcastUrl v)))
  /\ (exists avatar, descend [0; 0] tree = Some avatar
                     /\ prop avatar "href" = Some (VStr (profileUrl v))).
Proof.
  intros Hr Hv Er Erc El Ew. unfold render in Hr. rewrite Hv in Hr. cbn [ebind] in Hr.
  unfold view in Hr. do 14 ebind_inv Hr. injection Hr as <-.
  rewrite Er in E9. rewrite Erc in E10. rewrite El in E11. rewrite Ew in E12.
  change (Val (stat_item (warpcastUrl v) "ReplyIcon" (NumberToLocaleString host r))
          = Val a9) in E9.
  change (Val (stat_item (warpcastUrl v) "RecastIcon" (NumberToLocaleString host rc))
          = Val a10) in E10.
  change (Val (stat_item (warpcastUrl v) "LikeIcon" (NumberToLocaleString host l))
          = Val a11) in E11.
  change (Val (stat_item (warpcastUrl v) "WatchIcon" (NumberToLocaleString host w))
          = Val a12) in E12.
  injection E9 as <-. injection E10 as <-. injection E11 as <-. injection E12 as <-.
  split; [reflexivity |]. split; eexists; split; reflexivity.
Qed.

(** X8: the channel badge.  With an empty [tags] array nothing is rendered in
    its place ([false]); with a non-empty one the badge is built from the
    first tag alone, its icon present exactly when [imageUrl] is truthy and
    its name exactly when [name] is truthy. *)
Theorem channel_badge (cast : value) (tree : node) :
  render host cast = Val tree ->
  (get cast "tags" = Val (VArr []) -> descend [2] tree = Some (Expr (VBool false)))
  /\ (forall tag rest,
        get cast "tags" = Val (VArr (tag :: rest)) ->
        (Z.of_nat (length (tag :: rest)) < 2 ^ 32)%Z ->
        descend [2] tree
        = Some (Element "div" []
                  [Element "div" [("className", VStr "farcaster-embed-channel")]
                     [badge_avatar tag; badge_name tag]])).
Proof.
  intros Hr. unfold render in Hr. ebind_inv Hr.
  unfold view in Hr. do 14 ebind_inv Hr. injection Hr as <-.
  change (descend [2] _) with (Some a9).
  clear - E9. unfold channel in E9. split.
  - intros Ht. rewrite !Ht in E9. cbn [ebind] in E9.
    change (Val (Expr (VBool false)) = Val a9) in E9. congruence.
  - intros tag rest Ht Hlen. rewrite !Ht in E9. cbn [ebind] in E9.
    rewrite length_is_number in E9. cbn [ebind] in E9.
    rewrite gt_zero_number in E9. cbn [ebind] in E9.
    rewrite float_of_nat_positive in E9 by (simpl length in *; lia).
    unfold and_node at 1 in E9. simpl truthy in E9. cbv iota in E9.
    change (get (VArr (tag :: rest)) "0") with (Val tag) in E9. cbn [ebind] in E9.
    destruct (nullish tag) eqn:Hn.
    + destruct tag; simpl in Hn; try discriminate Hn; discriminate E9.
    + rewrite !(get_field tag _ Hn) in E9. cbn [ebind] in E9.
      unfold badge_avatar, badge_name. unfold and_node in E9.
      destruct (truthy (field tag "imageUrl")); destruct (truthy (field tag "name"));
        cbn [ebind] in E9; congruence.
Qed.

End Shown.

(** ** Media that is absent or incomplete *)

Lemma div_nan_l (y : float) : PrimFloat.div PrimFloat.nan y = PrimFloat.nan.
Proof.
  apply FloatAxioms.Prim2SF_inj. rewrite FloatAxioms.div_spec.
  change (Prim2SF PrimFloat.nan) with S754_nan. reflexivity.
Qed.

Lemma div_nan_r (x : float) : PrimFloat.div x PrimFloat.nan = PrimFloat.nan.
Proof.
  apply FloatAxioms.Prim2SF_inj. rewrite FloatAxioms.div_spec.
  change (Prim2SF PrimFloat.nan) with S754_nan.
  destruct (Prim2SF x); reflexivity.
Qed.

Section IncompleteMedia.

Context (host : Host).

Lemma render_media (cast : value) (tree : node) :
  render host cast = Val tree ->
  exists v imgs vids,
    embeds_of cast "images" = Val (images v)
    /\ hasImages_of host (images v) = Val (hasImages v)
    /\ hasVideos_of host cast = Val (hasVideos v)
    /\ imageContainer host v = Val imgs /\ videoContainer host v = Val vids
    /\ descend [1; 1] tree = Some imgs /\ descend [1; 2] tree = Some vids.
Proof.
  unfold render. intros H. ebind_inv H. exists a.
  apply derive_inv in E.
  destruct E as (_ & _ & _ & _ & _ & _ & Himg & HhasI & HhasV & _).
  apply view_inv in H.
  destruct H as (meta & linkify & imgs & vids & chan & s1 & s2 & s3 & s4 & icon
                 & -> & HIc & HVc & _).
  exists imgs, vids. repeat split; assumption.
Qed.

(** X9: media that is not there leaves no container behind.  When
    [cast.embeds] is falsy, or the list under it is falsy, that very value
    stands where the container would be; when the list is an empty array,
    [false] does.  This holds for images and for videos. *)
Theorem no_media_no_container (cast e : value) (tree : node) :
  render host cast = Val tree ->
  get cast "embeds" = Val e ->
  (truthy e = false ->
   descend [1; 1] tree = Some (Expr e) /\ descend [1; 2] tree = Some (Expr e))
  /\ (truthy e = true ->
      (forall m, get e "images" = Val m ->
         (truthy m = false -> descend [1; 1] tree = Some (Expr m))
         /\ (m = VArr [] -> descend [1; 1] tree = Some (Expr (VBool false))))
      /\ (forall m, get e "videos" = Val m ->
            (truthy m = false -> descend [1; 2] tree = Some (Expr m))
            /\ (m = VArr [] -> descend [1; 2] tree = Some (Expr (VBool false))))).
Proof.
  intros Hr He.
  destruct (render_media cast tree Hr)
    as (v & imgs & vids & Himg & HhasI & HhasV & HIc & HVc & -> & ->).
  unfold imageContainer in HIc. unfold videoContainer in HVc.
  unfold embeds_of in Himg. unfold hasVideos_of, embeds_of in HhasV.
  rewrite !He in Himg, HhasV. cbn [ebind] in Himg, HhasV.
  unfold hasImages_of in HhasI.
  split.
  - intros Hf. rewrite !(and_then_falsy e _ Hf) in *.
    injection Himg as Himg. rewrite <- Himg in HhasI.
    rewrite (and_then_falsy e _ Hf) in HhasI. injection HhasI as HhasI.
    cbn [ebind] in HhasV. rewrite (and_then_falsy e _ Hf) in HhasV.
    injection HhasV as HhasV.
    rewrite <- HhasI in HIc. rewrite <- HhasV in HVc.
    unfold and_node in HIc, HVc. rewrite Hf in HIc, HVc.
    split; congruence.
  - intros Ht. rewrite !(and_then_truthy e _ Ht) in *. split.
    + intros m Hm. rewrite Hm in Himg. injection Himg as Himg.
      rewrite <- Himg in HhasI. split.
      * intros Hf. rewrite (and_then_falsy m _ Hf) in HhasI.
        injection HhasI as HhasI. rewrite <- HhasI in HIc.
        unfold and_node in HIc. rewrite Hf in HIc. congruence.
      * intros ->. change (Val (VBool false) = Val (hasImages v)) in HhasI.
        injection HhasI as HhasI. rewrite <- HhasI in HIc.
        unfold and_node in HIc. simpl truthy in HIc. congruence.
    + intros m Hm. rewrite !Hm in HhasV. cbn [ebind] in HhasV. split.
      * intros Hf. rewrite (and_then_falsy m _ Hf) in HhasV.
        injection HhasV as HhasV. rewrite <- HhasV in HVc.
        unfold and_node in HVc. rewrite Hf in HVc. congruence.
      * intros ->. change (Val (VBool false) = Val (hasVideos v)) in HhasV.
        injection HhasV as HhasV. rewrite <- HhasV in HVc.
        unfold and_node in HVc. simpl truthy in HVc. congruence.
Qed.

(** X10: a video entry that lacks [width] or [height], and whose [url]
    converts to a string, is still given a player; its aspect ratio is NaN,
    whatever the other dimension is. *)
Theorem missing_dimension (video other : value) :
  nullish video = false ->
  (get video "width" = Val VUndef /\ get video "height" = Val other)
  \/ (get video "height" = Val VUndef /\ get video "width" = Val other) ->
  primitive other = true ->
  primitive (field video "url") = true ->
  exists key,
    element_key host (field video "url") = Val key
    /\ videoPlayer host video
       = Val (Element "VideoPlayer"
                [("key", key); ("source", field video "sourceUrl");
                 ("aspectRatio", VNum PrimFloat.nan);
                 ("poster", field video "thumbnailUrl")]
                []).
Proof.
  intros Hn Hdim Hp Hu. destruct (ToNumber_primitive host other Hp) as [y Hy].
  destruct (element_key_primitive host _ Hu) as [key Hk].
  exists key. split; [exact Hk |].
  unfold videoPlayer, js_div.
  rewrite (get_field video "url" Hn), (get_field video "sourceUrl" Hn),
    (get_field video "thumbnailUrl" Hn).
  cbn [ebind].
  destruct Hdim as [[Hw Hh] | [Hh Hw]]; rewrite Hw, Hh; cbn [ebind]; rewrite Hy;
    change (ToNumber host VUndef) with (Val (A := float) PrimFloat.nan);
    cbn [ebind]; rewrite Hk; cbn [ebind].
  - now rewrite div_nan_l.
  - now rewrite div_nan_r.
Qed.

End IncompleteMedia.

Lemma statistics_shown_witness :
  exists tree,
    render sample_host sample_cast = Val tree
    /\ descend [3; 0] tree
       = Some (Element "ul" []
                 [stat_item "https://warpcast.com/dwr/0x0de97199e1c4d0a5f3b0a3f2e6d3c1b2a4958677"
                    "ReplyIcon" "4";
                  stat_item "https://warpcast.com/dwr/0x0de97199e1c4d0a5f3b0a3f2e6d3c1b2a4958677"
                    "RecastIcon" "7";
                  stat_item "https://warpcast.com/dwr/0x0de97199e1c4d0a5f3b0a3f2e6d3c1b2a4958677"
                    "LikeIcon" "1,234";
                  stat_item "https://warpcast.com/dwr/0x0de97199e1c4d0a5f3b0a3f2e6d3c1b2a4958677"
                    "WatchIcon" "2"]).
Proof.
  destruct (render sample_host sample_cast) as [tree | msg] eqn:E;
    [| vm_compute in E; discriminate E].
  exists tree. split; [reflexivity |].
  destruct (derive sample_host sample_cast) as [v | msg] eqn:Ev;
    [| vm_compute in Ev; discriminate Ev].
  assert (Hv : Val v = derive sample_host sample_cast) by (symmetry; exact Ev).
  vm_compute in Hv. injection Hv as Hv.
  destruct (statistics_shown sample_host sample_cast tree v 4 7 1234 2 E Ev
              ltac:(rewrite Hv; reflexivity) ltac:(rewrite Hv; reflexivity)
              ltac:(rewrite Hv; reflexivity) ltac:(rewrite Hv; reflexivity))
    as [H _].
  rewrite H, Hv. reflexivity.
Defined.

Lemma channel_badge_witness :
  (exists tree,
     render sample_host sample_cast = Val tree
     /\ descend [2] tree
        = Some (Element "div" []
                  [Element "div" [("className", VStr "farcaster-embed-channel")]
                     [Element "img"
                        [("src", VStr "https://i.example/dev.png"); ("alt", VStr "dev");
                         ("width", VNum 16); ("height", VNum 16);
                         ("className", VStr "farcaster-embed-channel-avatar")]
                        [];
                      Element "p" [("className", VStr "farcaster-embed-channel-name")]
                        [Expr (VStr "dev")]]]))
  /\ (exists tree,
        render sample_host parent_cast = Val tree
        /\ descend [2] tree = Some (Expr (VBool false))).
Proof.
  split.
  - destruct (render sample_host sample_cast) as [tree | msg] eqn:E;
      [| vm_compute in E; discriminate E].
    exists tree. split; [reflexivity |].
    exact (proj2 (channel_badge sample_host sample_cast tree E) _ [] eq_refl
             ltac:(vm_compute; reflexivity)).
  - destruct (render sample_host parent_cast) as [tree | msg] eqn:E;
      [| vm_compute in E; discriminate E].
    exists tree. split; [reflexivity |].
    exact (proj1 (channel_badge sample_host parent_cast tree E) eq_refl).
Defined.

Lemma no_media_no_container_witness :
  (exists tree,
     render sample_host parent_cast = Val tree
     /\ descend [1; 1] tree = Some (Expr VUndef)
     /\ descend [1; 2] tree = Some (Expr VUndef))
  /\ (exists tree,
        render sample_host
          (set_prop "embeds" (VObj [("images", VArr [])]) sample_cast) = Val tree
        /\ descend [1; 1] tree = Some (Expr (VBool false))
        /\ descend [1; 2] tree = Some (Expr VUndef)).
Proof.
  split.
  - destruct (render sample_host parent_cast) as [tree | msg] eqn:E;
      [| vm_compute in E; discriminate E].
    exists tree. split; [reflexivity |].
    exact (proj1 (no_media_no_container sample_host parent_cast VUndef tree E eq_refl)
             eq_refl).
  - destruct (render sample_host
                (set_prop "embeds" (VObj [("images", VArr [])]) sample_cast))
      as [tree | msg] eqn:E; [| vm_compute in E; discriminate E].
    exists tree. split; [reflexivity |].
    destruct (proj2 (no_media_no_container sample_host _
                       (VObj [("images", VArr [])]) tree E eq_refl) eq_refl)
      as [Hi Hv].
    split.
    + exact (proj2 (Hi (VArr []) eq_refl) eq_refl).
    + exact (proj1 (Hv VUndef eq_refl) eq_refl).
Defined.

Lemma missing_dimension_witness :
  get video_no_width "width" = Val VUndef
  /\ videoPlayer sample_host video_no_width
     = Val (Element "VideoPlayer"
              [("key", VStr "https://v.example/b.m3u8");
               ("source", VStr "https://s.example/b.m3u8");
               ("aspectRatio", VNum PrimFloat.nan);
               ("poster", VStr "https://v.example/b.jpg")]
              []).
Proof.
  split; [reflexivity |].
  destruct (missing_dimension sample_host video_no_width (VNum 1080) eq_refl
              (or_introl (conj eq_refl eq_refl)) eq_refl eq_refl)
    as (key & Hk & H).
  change (Val (VStr "https://v.example/b.m3u8") = Val key) in Hk.
  injection Hk as <-. exact H.
Defined.

(** ** Urls that are too short *)

Lemma split_slash_length (s : string) :
  length (split_slash s) = S (count_slash s).
Proof.
  induction s as [| c r IH]; simpl; [reflexivity |].
  destruct (Ascii.eqb c "/"%char); simpl; [now rewrite IH |].
  destruct (split_slash r) as [| h t]; simpl in *; [discriminate IH | exact IH].
Qed.

Section ShortUrl.

Context (host : Host).

(** X11: a non-empty url with fewer than four slashes is rejected as invalid
    input without any request, even when a complete username and hash come
    with it; an empty url is treated as no url at all. *)
Theorem short_url_is_invalid (net : network) (url : string)
    (username hash : option string) (log : list request) :
  (url <> "" -> count_slash url < 4 ->
   FarcasterEmbed host net (Some url) username hash log = (log, Rejected invalid_input))
  /\ FarcasterEmbed host net (Some "") username hash log
     = FarcasterEmbed host net None username hash log.
Proof.
  split; [| reflexivity].
  intros Hne Hcount. apply String.eqb_neq in Hne.
  rewrite FarcasterEmbed_unfold. unfold identify. rewrite Hne. simpl negb. cbv iota.
  assert (H4 : nth_error (split_slash url) 4 = None).
  { apply nth_error_None. rewrite split_slash_length. lia. }
  rewrite H4. destruct (nth_error (split_slash url) 3); reflexivity.
Qed.

End ShortUrl.

Lemma short_url_is_invalid_witness :
  FarcasterEmbed sample_host (serving (thread [sample_cast]))
    (Some "warpcast.com/dwr/0x0de97199") (Some "dwr") (Some "0x0de97199") []
  = ([], Rejected invalid_input).
Proof.
  refine (proj1 (short_url_is_invalid sample_host (serving (thread [sample_cast]))
                   "warpcast.com/dwr/0x0de97199" (Some "dwr") (Some "0x0de97199") [])
            _ _).
  - intros H. discriminate H.
  - vm_compute. lia.
Defined.

(** A media [url] that cannot be made a key is fatal, and such a cast is not
    [well_shaped]. *)
Example unkeyable_image_faults :
  render sample_host
    (set_prop "embeds" (VObj [("images", VArr [image_unkeyable])]) sample_cast)
  = TypeErr "Cannot convert object to primitive value"
  /\ well_shaped
       (set_prop "embeds" (VObj [("images", VArr [image_unkeyable])]) sample_cast)
     = false.
Proof. split; reflexivity. Qed.
